(** * Weekly / Monthly Ads Monitor: period pairing and dashboard formulas

    A shallow embedding of the period-pairing and formula-generation code of
    [scripts/weekly-ads-monitor/weekly-ads-monitor-1-8-9.js] and of the
    monthly monitor, with the properties its specification states.

    Modelling conventions.
    - A JavaScript [Date] is its time value: the milliseconds since
      1970-01-01T00:00:00Z (a [Z]); an Invalid Date is the absence of one.
      The calendar fields of a [Date] ([getFullYear], [getDate], [getDay],
      [setFullYear], [setDate], [new Date(y, m, d)]) are read and written on
      the script's clock, a [Zone]; [Utilities.formatDate] prints on the
      clock of the account, another [Zone].
    - [new Date(string)] is the host's [Date.parse], a parameter
      ([dateParse]); [parseIso] is what every host gives for a well-formed
      date-only key [yyyy-MM-dd]: midnight UTC of that day.
    - Date keys have four-digit years, which is what
      [Utilities.formatDate(_, _, 'yyyy-MM-dd')] prints.
    - JavaScript numbers are IEEE 754 binary64 values ([spec_float] at
      precision 53), with round-to-nearest-even arithmetic.
    - The formulas written to the sheet are modelled as the text the code
      writes, and as the call trees that text is the print of; what the
      spreadsheet makes of them is outside the repository and is not
      modelled.
    - [Logger] output is write-only; it is kept only where a property is
      about what a run reports. *)

From Stdlib Require Import ZArith List String Ascii Bool Lia Sorted Permutation.
From Stdlib Require Import DecimalString SpecFloat.
From ExtLib Require Import Structures.Monad Structures.MonadState Data.Monads.StateMonad.
Import ListNotations.
Import MonadNotation.

Local Open Scope Z_scope.

(** JavaScript template-literal / [+] concatenation of strings. *)
Infix "+++" := String.append (right associativity, at level 60).

(* ===================================================================== *)
(** ** Calendar arithmetic of the ECMAScript [Date] object *)
(* ===================================================================== *)

Module Calendar.

(** [InLeapYear] of ECMA-262, on the year. *)
Definition isLeap (y : Z) : bool :=
  ((y mod 4 =? 0) && negb (y mod 100 =? 0)) || (y mod 400 =? 0).

Definition DaysInYear (y : Z) : Z := if isLeap y then 366 else 365.

(** [DayFromYear(y)]: the day number of January 1st of year [y]. *)
Definition DayFromYear (y : Z) : Z :=
  365 * (y - 1970) + (y - 1969) / 4 - (y - 1901) / 100 + (y - 1601) / 400.

(** Day within the year on which month [m] (0 = January) starts. *)
Definition MonthStart (leap : bool) (m : Z) : Z :=
  let l := if leap then 1 else 0 in
  match m with
  | 0 => 0
  | 1 => 31
  | 2 => 59 + l
  | 3 => 90 + l
  | 4 => 120 + l
  | 5 => 151 + l
  | 6 => 181 + l
  | 7 => 212 + l
  | 8 => 243 + l
  | 9 => 273 + l
  | 10 => 304 + l
  | 11 => 334 + l
  | _ => 365 + l
  end.

Definition DaysInMonth (y m : Z) : Z :=
  MonthStart (isLeap y) (m + 1) - MonthStart (isLeap y) m.

(** [MakeDay(year, month, date)]: months outside 0..11 carry into the year
    and a day of month outside the month carries into the neighbouring
    months, as in [new Date(y, m, 0)] or [setFullYear] on February 29th. *)
Definition MakeDay (year month date : Z) : Z :=
  let ym := year + month / 12 in
  let mn := month mod 12 in
  DayFromYear ym + MonthStart (isLeap ym) mn + date - 1.

(** [YearFromTime]: the largest year whose first day is not after [d],
    found by an upward search from a lower estimate. *)
Fixpoint searchYear (fuel : nat) (y d : Z) : Z :=
  match fuel with
  | O => y
  | S fuel' => if DayFromYear (y + 1) <=? d then searchYear fuel' (y + 1) d else y
  end.

Definition YearFromDay (d : Z) : Z :=
  searchYear (Z.to_nat (Z.abs (d / 365 - d / 366) + 2))
             (1970 + Z.min (d / 365) (d / 366)) d.

Definition DayWithinYear (d : Z) : Z := d - DayFromYear (YearFromDay d).

(** [MonthFromTime] (0 = January). *)
Definition MonthFromDay (d : Z) : Z :=
  let leap := isLeap (YearFromDay d) in
  let w := DayWithinYear d in
  if w <? MonthStart leap 1 then 0
  else if w <? MonthStart leap 2 then 1
  else if w <? MonthStart leap 3 then 2
  else if w <? MonthStart leap 4 then 3
  else if w <? MonthStart leap 5 then 4
  else if w <? MonthStart leap 6 then 5
  else if w <? MonthStart leap 7 then 6
  else if w <? MonthStart leap 8 then 7
  else if w <? MonthStart leap 9 then 8
  else if w <? MonthStart leap 10 then 9
  else if w <? MonthStart leap 11 then 10
  else 11.

(** [DateFromTime]: the day of the month, from 1. *)
Definition DateFromDay (d : Z) : Z :=
  DayWithinYear d - MonthStart (isLeap (YearFromDay d)) (MonthFromDay d) + 1.

(** [WeekDay]: 0 = Sunday; 1970-01-01 was a Thursday. *)
Definition WeekDay (d : Z) : Z := (d + 4) mod 7.

End Calendar.

(* ===================================================================== *)
(** ** Date keys: the [yyyy-MM-dd] strings of [segments.week] *)
(* ===================================================================== *)

Module DateKey.
Import Calendar.

Definition digitChar (n : Z) : ascii := ascii_of_nat (48 + Z.to_nat n).

Definition charDigit (c : ascii) : option Z :=
  let n := Z.of_nat (nat_of_ascii c) in
  if (48 <=? n) && (n <=? 57) then Some (n - 48) else None.

Definition pad2 (n : Z) : string :=
  String (digitChar (n / 10 mod 10)) (String (digitChar (n mod 10)) EmptyString).

Definition pad4 (n : Z) : string :=
  String (digitChar (n / 1000 mod 10)) (String (digitChar (n / 100 mod 10)) (pad2 n)).

(** [Utilities.formatDate(date, tz, 'yyyy-MM-dd')] for four-digit years. *)
Definition formatDate (d : Z) : string :=
  pad4 (YearFromDay d) +++ "-" +++ pad2 (MonthFromDay d + 1) +++ "-" +++ pad2 (DateFromDay d).

Definition num2 (a b : ascii) : option Z :=
  match charDigit a, charDigit b with
  | Some x, Some y => Some (10 * x + y)
  | _, _ => None
  end.

Definition num4 (a b c d : ascii) : option Z :=
  match num2 a b, num2 c d with
  | Some x, Some y => Some (100 * x + y)
  | _, _ => None
  end.

Definition isDash (c : ascii) : bool := Ascii.eqb c "-".

(** The day that a well-formed date-only key [yyyy-MM-dd] names (the
    date-only form of the ECMA-262 date-time string format); what a host
    reads from any other string is its own business, see [dateParse]. *)
Definition parseDate (s : string) : option Z :=
  match s with
  | String y1 (String y2 (String y3 (String y4 (String s1
      (String m1 (String m2 (String s2 (String d1 (String d2 EmptyString))))))))) =>
      match num4 y1 y2 y3 y4, num2 m1 m2, num2 d1 d2 with
      | Some y, Some m, Some dt =>
          if isDash s1 && isDash s2 && (1 <=? m) && (m <=? 12)
             && (1 <=? dt) && (dt <=? DaysInMonth y (m - 1))
          then Some (MakeDay y (m - 1) dt)
          else None
      | _, _, _ => None
      end
  | _ => None
  end.

End DateKey.

(* ===================================================================== *)
(** ** Time values, clocks and the host's date functions *)
(* ===================================================================== *)

Module JsDate.
Import Calendar DateKey.

Definition msPerDay : Z := 86400000.
Definition msPerHour : Z := 3600000.

(** [Day(t)], [TimeWithinDay(t)] and [MakeDate(day, time)] of ECMA-262. *)
Definition Day (t : Z) : Z := t / msPerDay.
Definition TimeWithinDay (t : Z) : Z := t mod msPerDay.
Definition MakeDate (day time : Z) : Z := day * msPerDay + time.

(** A clock: the offset of local time from UTC, in milliseconds, at an
    instant ([LocalTZA(t, true)]) and at a local time value
    ([LocalTZA(t, false)]). *)
Record Zone := {
  offsetAtInstant : Z -> Z;
  offsetAtLocal : Z -> Z
}.

Definition LocalTime (tz : Zone) (t : Z) : Z := t + offsetAtInstant tz t.
Definition UTC (tz : Zone) (t : Z) : Z := t - offsetAtLocal tz t.

Section Clock.

(** The clock on which the script reads and writes calendar fields. *)
Variable tz : Zone.

Definition getFullYear (t : Z) : Z := YearFromDay (Day (LocalTime tz t)).
Definition getMonth (t : Z) : Z := MonthFromDay (Day (LocalTime tz t)).
Definition getDate (t : Z) : Z := DateFromDay (Day (LocalTime tz t)).
Definition getDay (t : Z) : Z := WeekDay (Day (LocalTime tz t)).

(** [date.setFullYear(year)]: the same local month, day of month and time
    of day in [year]. *)
Definition setFullYear (t year : Z) : Z :=
  let local := LocalTime tz t in
  UTC tz (MakeDate (MakeDay year (MonthFromDay (Day local)) (DateFromDay (Day local)))
                   (TimeWithinDay local)).

(** [date.setDate(date)]: day [date] of the local month, at the same local
    time of day, carrying over. *)
Definition setDate (t date : Z) : Z :=
  let local := LocalTime tz t in
  UTC tz (MakeDate (MakeDay (YearFromDay (Day local)) (MonthFromDay (Day local)) date)
                   (TimeWithinDay local)).

(** [new Date(year, month, date)]: local midnight. *)
Definition newDate (year month date : Z) : Z :=
  UTC tz (MakeDate (MakeDay year month date) 0).

End Clock.

(** [Utilities.formatDate(date, timeZone, 'yyyy-MM-dd')], where [timeZone]
    is [AdsApp.currentAccount().getTimeZone()]: the day of the instant on
    the account's clock; [None] when the host call throws. *)
Definition Utilities_formatDate (accountTimeZone : option Zone) (t : Z) : option string :=
  match accountTimeZone with
  | Some tz => Some (formatDate (Day (LocalTime tz t)))
  | None => None
  end.

(** [Date.parse] of a well-formed date-only key: midnight UTC of its day,
    on every host. Other strings are left unread here; hosts differ on
    them (some read [2025-02-30] as March 2nd, or [2025/01/06] as a local
    midnight), so what holds whatever the host reads is stated for an
    arbitrary [dateParse], and [parseIso] stands for the host only in runs
    whose keys are well formed or are not read as dates at all. *)
Definition parseIso (s : string) : option Z :=
  match parseDate s with
  | Some d => Some (MakeDate d 0)
  | None => None
  end.

(** *** Clocks *)

Definition fixedZone (offset : Z) : Zone :=
  {| offsetAtInstant := fun _ => offset; offsetAtLocal := fun _ => offset |}.

Definition utc : Zone := fixedZone 0.

(** Asia/Tokyo: nine hours ahead of UTC all year. *)
Definition tokyo : Zone := fixedZone (9 * msPerHour).

Definition sundayOnOrAfter (d : Z) : Z := d + (7 - WeekDay d) mod 7.

(** America/Los_Angeles under the rules in force since 2007: eight hours
    behind UTC, seven from 02:00 on the second Sunday of March to 02:00 on
    the first Sunday of November. A local time that the change skips or
    repeats is read with the offset in force before the change. *)
Definition pacificSummerStart (year : Z) : Z := sundayOnOrAfter (MakeDay year 2 8).
Definition pacificSummerEnd (year : Z) : Z := sundayOnOrAfter (MakeDay year 10 1).

Definition pacific : Zone :=
  {| offsetAtInstant := fun t =>
       let year := YearFromDay (Day (t - 8 * msPerHour)) in
       if (MakeDate (pacificSummerStart year) (10 * msPerHour) <=? t)
          && (t <? MakeDate (pacificSummerEnd year) (9 * msPerHour))
       then - (7 * msPerHour) else - (8 * msPerHour);
     offsetAtLocal := fun t =>
       let year := YearFromDay (Day t) in
       if (MakeDate (pacificSummerStart year) (3 * msPerHour) <=? t)
          && (t <? MakeDate (pacificSummerEnd year) (2 * msPerHour))
       then - (7 * msPerHour) else - (8 * msPerHour) |}.

End JsDate.

(* ===================================================================== *)
(** ** JavaScript built-ins used by the scripts *)
(* ===================================================================== *)

Module Js.

(** [String(n)] / [n.toString()] of an integer. *)
Definition toString (n : Z) : string := NilZero.string_of_int (Z.to_int n).

(** [s.includes(needle)]. *)
Fixpoint includes (needle s : string) : bool :=
  String.prefix needle s
  || match s with
     | EmptyString => false
     | String _ s' => includes needle s'
     end.

(** [list.includes(x)] on strings. *)
Definition arrayIncludes (x : string) (l : list string) : bool :=
  existsb (String.eqb x) l.

(** Truthiness of a string-or-null value. *)
Definition truthy (v : option string) : bool :=
  match v with
  | Some (String _ _) => true
  | _ => false
  end.

(** [v || null] on a string-or-null value. *)
Definition orNull (v : option string) : option string :=
  if truthy v then v else None.

(** [v || ''] on an optional string field. *)
Definition orEmpty (v : option string) : string :=
  match v with
  | Some s => s
  | None => EmptyString
  end.

(** [[...new Set(l)]]: the distinct elements in order of first insertion. *)
Fixpoint newSet (seen l : list string) : list string :=
  match l with
  | [] => []
  | x :: l' => if arrayIncludes x seen then newSet seen l'
               else x :: newSet (x :: seen) l'
  end.

(** [array.sort()] with the default comparison, on strings. *)
Fixpoint insertSorted (x : string) (l : list string) : list string :=
  match l with
  | [] => [x]
  | y :: l' => if String.leb x y then x :: l else y :: insertSorted x l'
  end.

Definition sort (l : list string) : list string :=
  fold_right insertSorted [] l.

(** *** Numbers: IEEE 754 binary64 *)

Definition number : Type := spec_float.

Definition prec : Z := 53.
Definition emax : Z := 1024.

(** The number that an integer literal or an integer time value denotes
    (exact below 2^53). *)
Definition ofZ (n : Z) : number := binary_normalize prec emax n 0 false.

Definition NaN : number := S754_nan.
Definition Infinity : number := S754_infinity false.

Definition add (x y : number) : number := SFadd prec emax x y.
Definition mul (x y : number) : number := SFmul prec emax x y.
Definition div (x y : number) : number := SFdiv prec emax x y.

(** [x > y], [x < y] and [x <= y]; false when either side is [NaN]. *)
Definition gtb (x y : number) : bool := SFltb y x.
Definition ltb (x y : number) : bool := SFltb x y.
Definition leb (x y : number) : bool := SFleb x y.

(** Truthiness of a number: neither zero nor [NaN]. *)
Definition truthyNumber (x : number) : bool :=
  match x with
  | S754_zero _ => false
  | S754_nan => false
  | _ => true
  end.

(** [x || 0] on a number. *)
Definition orZero (x : number) : number :=
  if truthyNumber x then x else ofZ 0.

(** [Math.round]: the nearest integer, a tie going up; an integer, a zero,
    an infinity or [NaN] is returned as it is, and a result of zero keeps
    the sign of the argument. For a finite [x = m * 2^e] with [e < 0] the
    result is the floor of [x + 1/2], computed exactly. *)
Definition Math_round (x : number) : number :=
  match x with
  | S754_finite s m e =>
      if 0 <=? e then x
      else
        let mantissa := if s then Z.neg m else Z.pos m in
        binary_normalize prec emax ((2 * mantissa + 2 ^ (- e)) / 2 ^ (1 - e)) 0 s
  | _ => x
  end.

(** [Math.round(x * 100) / 100]. *)
Definition round2 (x : number) : number :=
  div (Math_round (mul x (ofZ 100))) (ofZ 100).

End Js.

(* ===================================================================== *)
(** ** [processData]: from query rows to the rows of the Raw sheet *)
(* ===================================================================== *)

Module Ads.
Import Calendar DateKey JsDate Js.

(** A row of the GAQL result; an absent object or field is [None]. A metric
    field holds the number that [Number(_)] makes of it. *)
Record Campaign := { name : option string; advertisingChannelType : option string }.
Record Segments := { week : option string }.
Record Metrics := {
  impressions : option number;
  clicks : option number;
  costMicros : option number;
  conversions : option number;
  conversionsValue : option number
}.
Record AdsRow := {
  campaign : option Campaign;
  segments : option Segments;
  metrics : option Metrics
}.

(** The 13 entries of [newRow] (columns A..M of the Raw sheet, indices
    0..12). *)
Record RawRow := {
  weekStart : string;          (* 0, A *)
  weekEnd : string;            (* 1, B *)
  campaignName : string;       (* 2, C *)
  campaignType : string;       (* 3, D *)
  isBrand : bool;              (* 4, E *)
  rImpressions : number;       (* 5, F *)
  rClicks : number;            (* 6, G *)
  cost : number;               (* 7, H *)
  costPerClick : number;       (* 8, I *)
  rConversions : number;       (* 9, J *)
  conversionValue : number;    (* 10, K *)
  roas : number;               (* 11, L *)
  costPerConversion : number   (* 12, M *)
}.

(** A cell of the Raw sheet, and the array [newRow] as it is pushed. *)
Inductive RawCell : Type :=
| RawText (s : string)
| RawFlag (b : bool)
| RawNumber (n : number).

Definition newRow (r : RawRow) : list RawCell :=
  [ RawText (weekStart r); RawText (weekEnd r); RawText (campaignName r);
    RawText (campaignType r); RawFlag (isBrand r); RawNumber (rImpressions r);
    RawNumber (rClicks r); RawNumber (cost r); RawNumber (costPerClick r);
    RawNumber (rConversions r); RawNumber (conversionValue r); RawNumber (roas r);
    RawNumber (costPerConversion r) ].

(** [Number(v) || 0]; an absent field gives [Number(undefined)], [NaN]. *)
Definition numberOrZero (v : option number) : number :=
  match v with
  | Some x => orZero x
  | None => orZero NaN
  end.

Definition field {A B} (o : option A) (f : A -> option B) : option B :=
  match o with
  | Some a => f a
  | None => None
  end.

(** The [switch] that makes campaign types readable. *)
Definition formatCampaignType (t : string) : string :=
  if String.eqb t "SEARCH" then "Search"
  else if String.eqb t "DISPLAY" then "Display"
  else if String.eqb t "SHOPPING" then "Shopping"
  else if String.eqb t "VIDEO" then "Video"
  else if String.eqb t "PERFORMANCE_MAX" then "Performance Max"
  else if String.eqb t "" then "Unknown" else t.

(** A record whose period start is missing or is not a well-formed date
    key. *)
Definition malformedPeriodStart (row : AdsRow) : bool :=
  match parseDate (orEmpty (field (segments row) week)) with
  | Some _ => false
  | None => true
  end.

(** The rows of the iterator that are row objects, in order. *)
Definition rowObjects (rows : list (option AdsRow)) : list AdsRow :=
  flat_map (fun r => match r with Some row => [row] | None => [] end) rows.

Section ProcessData.

Variable BRAND_CAMPAIGNS : list string.
(** The script's clock, the account's time zone as the host gives it, and
    the host's [new Date(string)]. *)
Variable scriptZone : Zone.
Variable accountTimeZone : option Zone.
Variable dateParse : string -> option Z.

(** Week end date: the start moved on by six days of the month on the
    script's clock, printed on the account's clock, and empty for an empty
    start. The [catch] gives the start itself; it is taken when
    [Utilities.formatDate] throws, which it is taken to do on the Invalid
    Date of a start that the host cannot read. *)
Definition weekEndOf (weekStart : string) : string :=
  match weekStart with
  | EmptyString => EmptyString
  | _ =>
      match dateParse weekStart with
      | Some startDate =>
          let endDate := setDate scriptZone startDate (getDate scriptZone startDate + 6) in
          match Utilities_formatDate accountTimeZone endDate with
          | Some weekEnd => weekEnd
          | None => weekStart
          end
      | None => weekStart
      end
  end.

(** The body of the [try] block for one row. *)
Definition processRow (row : AdsRow) : RawRow :=
  let campaignName := orEmpty (field (campaign row) name) in
  let campaignType := orEmpty (field (campaign row) advertisingChannelType) in
  let isBrand := arrayIncludes campaignName BRAND_CAMPAIGNS in
  let campaignType := formatCampaignType campaignType in
  let weekStart := orEmpty (field (segments row) week) in
  let impressions := numberOrZero (field (metrics row) impressions) in
  let clicks := numberOrZero (field (metrics row) clicks) in
  let costMicros := numberOrZero (field (metrics row) costMicros) in
  let conversions := numberOrZero (field (metrics row) conversions) in
  let conversionValue := numberOrZero (field (metrics row) conversionsValue) in
  let weekEnd := weekEndOf weekStart in
  let cost := div (Math_round (mul (div costMicros (ofZ 1000000)) (ofZ 100))) (ofZ 100) in
  let conversionValue := div (Math_round (mul conversionValue (ofZ 100))) (ofZ 100) in
  let costPerClick :=
    if gtb clicks (ofZ 0)
    then div (Math_round (mul (div cost clicks) (ofZ 100))) (ofZ 100) else ofZ 0 in
  let costPerConversion :=
    if gtb conversions (ofZ 0)
    then div (Math_round (mul (div cost conversions) (ofZ 100))) (ofZ 100) else ofZ 0 in
  let roas :=
    if gtb cost (ofZ 0)
    then div (Math_round (mul (div conversionValue cost) (ofZ 100))) (ofZ 100) else ofZ 0 in
  {| weekStart := weekStart; weekEnd := weekEnd; campaignName := campaignName;
     campaignType := campaignType; isBrand := isBrand;
     rImpressions := impressions; rClicks := clicks; cost := cost;
     costPerClick := costPerClick; rConversions := conversions;
     conversionValue := conversionValue; roas := roas;
     costPerConversion := costPerConversion |}.

(** The variables of the [while] loop, and the number of
    [Error processing row] lines logged by its [catch]. *)
Record LoopState := {
  data : list RawRow;
  count : nat;
  brandCampaignCount : nat;
  errorLines : nat
}.

Definition initialState : LoopState :=
  {| data := []; count := 0; brandCampaignCount := 0; errorLines := 0 |}.

(** One iteration; [rows.next()] that yields no row object makes the body
    throw after [count++], and the [catch] logs and goes on. *)
Definition step (st : LoopState) (next : option AdsRow) : LoopState :=
  match next with
  | None =>
      {| data := data st; count := S (count st);
         brandCampaignCount := brandCampaignCount st;
         errorLines := S (errorLines st) |}
  | Some row =>
      let newRow := processRow row in
      {| data := data st ++ [newRow]; count := S (count st);
         brandCampaignCount :=
           if isBrand newRow then S (brandCampaignCount st) else brandCampaignCount st;
         errorLines := errorLines st |}
  end.

Definition processLoop (rows : list (option AdsRow)) : LoopState :=
  fold_left step rows initialState.

Definition processData (rows : list (option AdsRow)) : list RawRow :=
  data (processLoop rows).

(** The [Data processing summary] line logged before returning. *)
Record Summary := {
  totalRecords : nat;
  summaryBrandCampaignCount : nat;
  processedRecords : nat
}.

(** The number of records that the summary line shows as not processed. *)
Definition skippedRecords (s : Summary) : nat := totalRecords s - processedRecords s.

Definition processSummary (rows : list (option AdsRow)) : Summary :=
  let st := processLoop rows in
  {| totalRecords := count st;
     summaryBrandCampaignCount := brandCampaignCount st;
     processedRecords := List.length (data st) |}.

End ProcessData.

End Ads.

(* ===================================================================== *)
(** ** Weekly monitor: date range and year-over-year week pairing *)
(* ===================================================================== *)

Module Weekly.
Import Calendar DateKey JsDate Js Ads.

(** The data source's [segments.week] for a day [segments.date] of the
    account's calendar: the Monday of its week, as a key. *)
Definition weekOfDate (date : Z) : Z := date - (WeekDay date + 6) mod 7.

Definition segmentsWeek (date : Z) : string := formatDate (weekOfDate date).

Record WeekData := { records : nat; spend : number }.

(** The variables updated by the nearest-week search. *)
Record Search := {
  closestWeek : option string;
  smallestDiff : number;
  closestWeekData : option WeekData
}.

Definition initialSearch : Search :=
  {| closestWeek := None; smallestDiff := Infinity; closestWeekData := None |}.

(** An element of [weekPairs]. *)
Record WeekPair := { current : string; previous : option string }.

(** [timeDiff / (1000 * 60 * 60 * 24)], with [timeDiff] the distance of two
    time values. *)
Definition daysDiffOf (weekDate target : Z) : number :=
  let timeDiff := ofZ (Z.abs (weekDate - target)) in
  div timeDiff (ofZ (1000 * 60 * 60 * 24)).

(** [allWeekDates] and its two per-year filters. *)
Definition allWeekDates (rawData : list RawRow) : list string :=
  sort (newSet [] (map weekStart rawData)).

Definition weeksOfYear (year : Z) (weeks : list string) : list string :=
  filter (fun week => includes (toString year) week) weeks.

(** The comparison buckets that the pairs of a run refer to, pair by pair. *)
Definition comparisonBuckets (weekPairs : list WeekPair) : list string :=
  flat_map (fun p => match previous p with
                     | Some w => [w]
                     | None => []
                     end) weekPairs.

Section Clocks.

Variable scriptZone : Zone.
Variable accountTimeZone : option Zone.
Variable dateParse : string -> option Z.

(** [getDateRange]: from January 1st of last year to the last complete
    Sunday; [now] is the instant of the run. The weekday and the day of the
    month are read on the script's clock and the two ends are printed on
    the account's; the [catch] returns a fixed range. *)
Definition endDate (now : Z) : Z :=
  let today := now in
  let dayOfWeek := getDay scriptZone today in
  if dayOfWeek =? 0 then setDate scriptZone today (getDate scriptZone today - 7)
  else setDate scriptZone today (getDate scriptZone today - dayOfWeek).

Definition startDate (now : Z) : Z :=
  let currentYear := getFullYear scriptZone now in
  newDate scriptZone (currentYear - 1) 0 1.

Definition getDateRange (now : Z) : string * string :=
  match Utilities_formatDate accountTimeZone (startDate now),
        Utilities_formatDate accountTimeZone (endDate now) with
  | Some start, Some end_ => (start, end_)
  | _, _ => ("2024-01-01"%string, "2025-01-01"%string)
  end.

(** The target of the search: the date of the current week moved back one
    year on the script's clock. *)
Definition exactPreviousDate (currentDate : Z) : Z :=
  setFullYear scriptZone currentDate (getFullYear scriptZone currentDate - 1).

(** The body of [availablePreviousWeeks.forEach]; a key that is not a date
    gives [NaN] differences, which pass no comparison. *)
Definition checkWeek (rawData : list RawRow) (target : Z)
    (st : Search) (weekStr : string) : Search :=
  match dateParse weekStr with
  | None => st
  | Some weekDate =>
      let daysDiff := daysDiffOf weekDate target in
      if leb daysDiff (ofZ 7) && ltb daysDiff (smallestDiff st) then
        let weekData := filter (fun row => String.eqb (weekStart row) weekStr) rawData in
        let weekSpend := fold_left (fun sum row => add sum (orZero (cost row)))
                                   weekData (ofZ 0) in
        {| closestWeek := Some weekStr; smallestDiff := daysDiff;
           closestWeekData := Some {| records := List.length weekData; spend := weekSpend |} |}
      else st
  end.

(** [findClosestPreviousYearWeek]; a current key that is not a date, or a
    host call that throws, ends in the [catch], which returns [null]. *)
Definition findClosestPreviousYearWeek (currentYearWeekStart : string)
    (availablePreviousWeeks : list string) (rawData : list RawRow) : option string :=
  match dateParse currentYearWeekStart with
  | None => None
  | Some currentDate =>
      let target := exactPreviousDate currentDate in
      match Utilities_formatDate accountTimeZone target with
      | None => None
      | Some exactPreviousDateStr =>
          if arrayIncludes exactPreviousDateStr availablePreviousWeeks
          then Some exactPreviousDateStr
          else closestWeek
                 (fold_left (checkWeek rawData target)
                            availablePreviousWeeks initialSearch)
      end
  end.

(** The body of [currentYearWeeks.forEach]: both branches push one pair. *)
Definition pairStep (previousYearWeeks : list string) (rawData : list RawRow)
    (weekPairs : list WeekPair) (currentWeek : string) : list WeekPair :=
  let previousWeek :=
    findClosestPreviousYearWeek currentWeek previousYearWeeks rawData in
  if truthy previousWeek
  then weekPairs ++ [{| current := currentWeek; previous := previousWeek |}]
  else weekPairs ++ [{| current := currentWeek; previous := None |}].

Definition pairWeeks (currentYearWeeks previousYearWeeks : list string)
    (rawData : list RawRow) : list WeekPair :=
  fold_left (pairStep previousYearWeeks rawData) currentYearWeeks [].

(** The pair that the iteration for [currentWeek] pushes. *)
Definition pairFor (previousYearWeeks : list string) (rawData : list RawRow)
    (currentWeek : string) : WeekPair :=
  {| current := currentWeek;
     previous := orNull (findClosestPreviousYearWeek currentWeek previousYearWeeks rawData) |}.

(** The pairs built by [createWeeklySummary] in a run of year [currentYear]
    ([new Date().getFullYear()]). *)
Definition weekPairsOf (currentYear : Z) (rawData : list RawRow) : list WeekPair :=
  let previousYear := currentYear - 1 in
  let currentYearWeeks := weeksOfYear currentYear (allWeekDates rawData) in
  let previousYearWeeks := weeksOfYear previousYear (allWeekDates rawData) in
  pairWeeks currentYearWeeks previousYearWeeks rawData.

(** What holds of the key the nearest-week search has chosen so far: it is
    one of the keys looked at, and it passed the test [daysDiff <= 7]. *)
Definition SearchInv (target : Z) (seen : list string) (st : Search) : Prop :=
  match closestWeek st with
  | None => True
  | Some w =>
      In w seen
      /\ exists t, dateParse w = Some t /\ leb (daysDiffOf t target) (ofZ 7) = true
  end.

(** What holds of the search after the keys [seen]: without a chosen key,
    no key looked at passed the test [daysDiff <= 7]; with one, it passed
    the test, [smallestDiff] is its distance, and no key looked at that
    passed the test is nearer. *)
Definition NearestInv (target : Z) (seen : list string) (st : Search) : Prop :=
  match closestWeek st with
  | None =>
      smallestDiff st = Infinity
      /\ forall w t, In w seen -> dateParse w = Some t ->
           leb (daysDiffOf t target) (ofZ 7) = false
  | Some w =>
      In w seen
      /\ exists t, dateParse w = Some t
           /\ smallestDiff st = daysDiffOf t target
           /\ leb (daysDiffOf t target) (ofZ 7) = true
           /\ forall w' t', In w' seen -> dateParse w' = Some t' ->
                leb (daysDiffOf t' target) (ofZ 7) = true ->
                ltb (daysDiffOf t' target) (daysDiffOf t target) = false
  end.

End Clocks.

End Weekly.

(* ===================================================================== *)
(** ** Monthly monitor: positional month pairing *)
(* ===================================================================== *)

Module Monthly.
Import Calendar Js.

(** Every date of the monthly builder is made and read on the script's
    clock alone; [today] is the day of the run on that clock.

    [new Date(today.getFullYear(), today.getMonth(), 0)]: the last day of
    the previous month. *)
Definition lastCompleteMonth (today : Z) : Z :=
  MakeDay (YearFromDay today) (MonthFromDay today) 0.

(** [lastCompleteMonth.getMonth() + 1]. *)
Definition currentMonthNumber (today : Z) : Z :=
  MonthFromDay (lastCompleteMonth today) + 1.

(** [list.slice(0, k)] for a non-negative [k]. *)
Definition slice0 {A} (k : Z) (l : list A) : list A := firstn (Z.to_nat k) l.

(** [rawMonths] is [rawData.map(row => row[0])]. *)
Definition allMonthDates (rawMonths : list string) : list string :=
  sort (newSet [] rawMonths).

Definition monthsOfYear (year : Z) (months : list string) : list string :=
  filter (fun month => includes (toString year) month) months.

Definition limitedCurrentYearMonths (today : Z) (rawMonths : list string) : list string :=
  slice0 (currentMonthNumber today)
         (monthsOfYear (YearFromDay today) (allMonthDates rawMonths)).

Definition previousYearMonths (today : Z) (rawMonths : list string) : list string :=
  slice0 (currentMonthNumber today)
         (monthsOfYear (YearFromDay today - 1) (allMonthDates rawMonths)).

(** The values each row of [formulaData] is built from: every formula of
    row [i] quotes [currentMonth] or [previousMonth] and refers to sheet row
    [rowNum]. *)
Record MonthRow := {
  monthNumber : Z;
  currentMonth : option string;
  previousMonth : option string;
  rowNum : Z
}.

(** The body of the [for] loop at index [i]. *)
Definition monthRow (limitedCurrent previous : list string) (i : nat) : MonthRow :=
  {| monthNumber := Z.of_nat i + 1;
     currentMonth := orNull (nth_error limitedCurrent i);
     previousMonth := orNull (nth_error previous i);
     rowNum := Z.of_nat i + 8 |}.

(** [for (let i = 0; i < maxMonths; i++) formulaData.push(...)]. *)
Definition monthRows (limitedCurrent previous : list string) : list MonthRow :=
  let maxMonths := List.length limitedCurrent in
  fold_left (fun formulaData i => formulaData ++ [monthRow limitedCurrent previous i])
            (seq 0 maxMonths) [].

Definition createMonthlySummary (today : Z) (rawMonths : list string) : list MonthRow :=
  monthRows (limitedCurrentYearMonths today rawMonths)
            (previousYearMonths today rawMonths).

End Monthly.

(* ===================================================================== *)
(** ** Weekly monitor: the formula rows of the summary sheet *)
(* ===================================================================== *)

Module Formula.
Import Js Ads Weekly.

Local Open Scope string_scope.
Local Open Scope monad_scope.

(** The double-quote character of the formula text. *)
Definition dquote : string := String (ascii_of_nat 34) EmptyString.

Definition quoted (s : string) : string := dquote +++ s +++ dquote.

(** [args.join(',')]. *)
Fixpoint join (sep : string) (args : list string) : string :=
  match args with
  | [] => EmptyString
  | [a] => a
  | a :: rest => a +++ sep +++ join sep rest
  end.

(** The text [=NAME(arg,...)] of a function call. *)
Definition call (functionName : string) (args : list string) : string :=
  "=" +++ functionName +++ "(" +++ join "," args +++ ")".

(** The user-editable filter cells B2..B5 of the summary sheet. *)
Record FilterState := {
  selectedCampaignType : string;   (* B2 *)
  excludeBrandCampaigns : string;  (* B3 *)
  hideYoyColumns : string;         (* B4 *)
  hideWoWColumns : string          (* B5 *)
}.

(** What a run can read and write outside its arguments: the spreadsheet
    (its locale and filter cells) and the lines written to [Logger]. *)
Record World := {
  spreadsheetLocale : option string;
  filters : FilterState;
  logger : list string
}.

Definition logLine (line : string) (w : World) : World :=
  {| spreadsheetLocale := spreadsheetLocale w;
     filters := filters w;
     logger := (logger w ++ [line])%list |}.

Definition DEBUG_LOGGING_ENABLED : bool := true.

(** [debugLog]; the JSON payload of a line is not rendered. *)
Definition debugLog (message : string) : state World unit :=
  if DEBUG_LOGGING_ENABLED
  then _ <- modify (logLine ("DEBUG: " +++ message)) ;; ret tt
  else ret tt.

(** [a || b] on strings that may be absent. *)
Definition orElse (a : option string) (b : string) : string :=
  match a with
  | Some (String c s) => String c s
  | _ => b
  end.

(** A cell of a row handed to [setValues]. *)
Inductive CellValue : Type :=
| NumberCell (n : Z)
| StringCell (s : string).

Section Builder.

(** The table [formulaMap] of [getLocaleAwareFormula]:
    [formulaMap formulaType locale] is [formulaMap[formulaType]?.[locale]]. *)
Variable formulaMap : string -> string -> option string.

Definition functionNameFor (formulaType locale : string) : string :=
  orElse (formulaMap formulaType locale)
         (orElse (formulaMap formulaType "en_US") formulaType).

Definition localeOf (w : World) : string := orElse (spreadsheetLocale w) "en_US".

Definition getLocaleAwareFormula (formulaType : string) (args : list string)
  : state World string :=
  debugLog "Generating locale-aware formula" ;;
  w <- get ;;
  let locale := localeOf w in
  debugLog "Spreadsheet locale detected" ;;
  let functionName := functionNameFor formulaType locale in
  debugLog "Locale-aware function name" ;;
  if String.eqb formulaType "IF" then ret (call functionName args)
  else if String.eqb formulaType "SUMIFS" then ret (call functionName args)
  else if String.eqb formulaType "OFFSET" then ret (call functionName args)
  else ret (call formulaType args).

Definition createIfFormula (condition trueValue falseValue : string)
  : state World string :=
  getLocaleAwareFormula "IF" [condition; trueValue; falseValue].

Definition createSumifsFormula (sumRange criteriaRange1 criteria1 : string)
    (criteriaRange2 criteria2 criteriaRange3 criteria3 : option string)
  : state World string :=
  let args := [sumRange; criteriaRange1; criteria1] in
  let args := if truthy criteriaRange2 && truthy criteria2
              then (args ++ [orEmpty criteriaRange2; orEmpty criteria2])%list else args in
  let args := if truthy criteriaRange3 && truthy criteria3
              then (args ++ [orEmpty criteriaRange3; orEmpty criteria3])%list else args in
  getLocaleAwareFormula "SUMIFS" args.

(** [createComplexSumifsFormula]; its parameters [excludeBrand] and
    [campaignTypeValue] are not used by the body. *)
Definition createComplexSumifsFormula (sumRange dateRange dateValue : string)
    (excludeBrand : bool) (campaignTypeValue : string)
    (brandRange campaignTypeRange : string) : state World string :=
  s1 <- createSumifsFormula sumRange dateRange dateValue
          (Some brandRange) (Some "FALSE") None None ;;
  s2 <- createSumifsFormula sumRange dateRange dateValue
          (Some brandRange) (Some "FALSE") (Some campaignTypeRange) (Some "B2") ;;
  innerIfExcludeBrand <- createIfFormula ("B2=" +++ quoted "All") s1 s2 ;;
  s3 <- createSumifsFormula sumRange dateRange dateValue None None None None ;;
  s4 <- createSumifsFormula sumRange dateRange dateValue
          (Some campaignTypeRange) (Some "B2") None None ;;
  innerIfIncludeAll <- createIfFormula ("B2=" +++ quoted "All") s3 s4 ;;
  createIfFormula ("B3=" +++ quoted "Yes") innerIfExcludeBrand innerIfIncludeAll.

(** A base metric of a week: the filtered sum, or ['0'] without a week. *)
Definition sumFormula (week : option string) (sumRange weekQuoted : string)
  : state World string :=
  if truthy week
  then createComplexSumifsFormula sumRange "Raw!A:A" weekQuoted true "All"
         "Raw!E:E" "Raw!D:D"
  else ret "0".

(** [IF(den>0, num/den, 0)] on cells of sheet row [r]. *)
Definition ratioFormula (den num : string) (r : Z) : state World string :=
  createIfFormula (den +++ toString r +++ ">0")
                  (num +++ toString r +++ "/" +++ den +++ toString r) "0".

(** The week-over-week formula of column [c] at sheet row [r]. *)
Definition wowFormula (c : string) (r : Z) : state World string :=
  inner <- createIfFormula (c +++ toString (r - 1) +++ ">0")
             ("(" +++ c +++ toString r +++ "/" +++ c +++ toString (r - 1) +++ ")*100")
             "0" ;;
  createIfFormula (toString r +++ ">11") inner "0".

(** The year-over-year index of column [c] against column [p]. *)
Definition indexFormula (c p : string) (r : Z) : state World string :=
  createIfFormula (p +++ toString r +++ ">0")
                  ("(" +++ c +++ toString r +++ "/" +++ p +++ toString r +++ ")*100") "0".

(** The body of the [for] loop of [createWeeklySummary] at index [i]:
    one row of 30 cells. *)
Definition formulaRow (weekPairs : list WeekPair) (i : nat)
  : state World (list CellValue) :=
  let weekNumber := Z.of_nat i + 1 in
  let currentWeek := orNull (field (nth_error weekPairs i) (fun p => Some (current p))) in
  let previousWeek := orNull (field (nth_error weekPairs i) previous) in
  let rowNum := Z.of_nat i + 11 in
  let displayWeek := orEmpty currentWeek in
  let weekStartQuoted := if truthy currentWeek then quoted (orEmpty currentWeek)
                         else dquote +++ dquote in
  let previousWeekQuoted := if truthy previousWeek then quoted (orEmpty previousWeek)
                            else dquote +++ dquote in
  clicksCurrentFormula <- sumFormula currentWeek "Raw!G:G" weekStartQuoted ;;
  costCurrentFormula <- sumFormula currentWeek "Raw!H:H" weekStartQuoted ;;
  conversionsCurrentFormula <- sumFormula currentWeek "Raw!J:J" weekStartQuoted ;;
  conversionValueCurrentFormula <- sumFormula currentWeek "Raw!K:K" weekStartQuoted ;;
  clicksPreviousFormula <- sumFormula previousWeek "Raw!G:G" previousWeekQuoted ;;
  costPreviousFormula <- sumFormula previousWeek "Raw!H:H" previousWeekQuoted ;;
  conversionsPreviousFormula <- sumFormula previousWeek "Raw!J:J" previousWeekQuoted ;;
  conversionValuePreviousFormula <- sumFormula previousWeek "Raw!K:K" previousWeekQuoted ;;
  costPerConvCurrentFormula <-
    (if truthy currentWeek then ratioFormula "O" "K" rowNum else ret "0") ;;
  costPerConvPreviousFormula <-
    (if truthy previousWeek then ratioFormula "Q" "M" rowNum else ret "0") ;;
  avgCPCCurrentFormula <- ratioFormula "C" "K" rowNum ;;
  avgCPCPreviousFormula <- ratioFormula "D" "L" rowNum ;;
  convValueCostCurrentFormula <- ratioFormula "K" "W" rowNum ;;
  convValueCostPreviousFormula <- ratioFormula "M" "Y" rowNum ;;
  clicksWoWFormula <- wowFormula "C" rowNum ;;
  cpcWoWFormula <- wowFormula "G" rowNum ;;
  costWoWFormula <- wowFormula "K" rowNum ;;
  conversionsWoWFormula <- wowFormula "O" rowNum ;;
  costPerConvWoWFormula <- wowFormula "S" rowNum ;;
  conversionValueWoWFormula <- wowFormula "W" rowNum ;;
  convValueCostWoWFormula <- wowFormula "AA" rowNum ;;
  clicksIndexFormula <- indexFormula "C" "E" rowNum ;;
  cpcIndexFormula <- indexFormula "G" "I" rowNum ;;
  costIndexFormula <- indexFormula "K" "M" rowNum ;;
  conversionsIndexFormula <- indexFormula "O" "Q" rowNum ;;
  costPerConvIndexFormula <- indexFormula "S" "U" rowNum ;;
  conversionValueIndexFormula <- indexFormula "W" "Y" rowNum ;;
  convValueCostIndexFormula <- indexFormula "AA" "AC" rowNum ;;
  ret [ NumberCell weekNumber;
        StringCell displayWeek;
        StringCell clicksCurrentFormula;
        StringCell clicksWoWFormula;
        StringCell clicksPreviousFormula;
        StringCell clicksIndexFormula;
        StringCell avgCPCCurrentFormula;
        StringCell cpcWoWFormula;
        StringCell avgCPCPreviousFormula;
        StringCell cpcIndexFormula;
        StringCell costCurrentFormula;
        StringCell costWoWFormula;
        StringCell costPreviousFormula;
        StringCell costIndexFormula;
        StringCell conversionsCurrentFormula;
        StringCell conversionsWoWFormula;
        StringCell conversionsPreviousFormula;
        StringCell conversionsIndexFormula;
        StringCell costPerConvCurrentFormula;
        StringCell costPerConvWoWFormula;
        StringCell costPerConvPreviousFormula;
        StringCell costPerConvIndexFormula;
        StringCell conversionValueCurrentFormula;
        StringCell conversionValueWoWFormula;
        StringCell conversionValuePreviousFormula;
        StringCell conversionValueIndexFormula;
        StringCell convValueCostCurrentFormula;
        StringCell convValueCostWoWFormula;
        StringCell convValueCostPreviousFormula;
        StringCell convValueCostIndexFormula ].

(** [for (let i = 0; i < maxWeeks; i++) { ...; formulaData.push(formulaRow) }]
    from index [i], with [n] iterations left. *)
Fixpoint formulaLoop (weekPairs : list WeekPair) (n i : nat)
    (formulaData : list (list CellValue)) : state World (list (list CellValue)) :=
  match n with
  | O => ret formulaData
  | S n' =>
      row <- formulaRow weekPairs i ;;
      formulaLoop weekPairs n' (S i) (formulaData ++ [row])%list
  end.

(** The formula-row generation of [createWeeklySummary]. *)
Definition buildFormulaData (weekPairs : list WeekPair)
  : state World (list (list CellValue)) :=
  let maxWeeks := List.length weekPairs in
  debugLog "Formula generation setup" ;;
  formulaLoop weekPairs maxWeeks 0 [].

End Builder.

End Formula.

(* ===================================================================== *)
(** ** The formulas as call trees *)
(* ===================================================================== *)

Module Sheet.
Import Js Ads Weekly Formula.

Local Open Scope string_scope.

(** The operands that occur in the generated formulas. *)
Inductive Operand : Type :=
| Lit (n : Z)                       (* [0], [11] *)
| Cell (col : string) (row : Z)     (* [C11], [B2] *)
| Text (s : string)                 (* a quoted text *)
| FalseLit.                         (* [FALSE] *)

(** The shapes of formula text the builder produces. *)
Inductive Expr : Type :=
| Atom (a : Operand)
| Gt (a b : Operand)                (* [a>b] *)
| EqText (a : Operand) (s : string) (* [a="s"] *)
| Quot (a b : Operand)              (* [a/b] *)
| Pct (a b : Operand)               (* [(a/b)*100] *)
| If (c t e : Expr)
| Sumifs (sumRange : string) (criteria : list (string * Operand)).

(** What a cell of the row holds before it is written. *)
Inductive CellAst : Type :=
| NumberAst (n : Z)
| TextAst (s : string)
| FormulaAst (e : Expr).

Section Render.

(** The names that [getLocaleAwareFormula] resolves for [IF] and [SUMIFS]. *)
Variables ifName sumifsName : string.

Definition renderOperand (a : Operand) : string :=
  match a with
  | Lit n => toString n
  | Cell c r => c +++ toString r
  | Text s => quoted s
  | FalseLit => "FALSE"
  end.

(** The text of a call tree; every call carries its own leading [=], as
    the helper that builds it puts one. *)
Fixpoint render (e : Expr) : string :=
  match e with
  | Atom a => renderOperand a
  | Gt a b => renderOperand a +++ ">" +++ renderOperand b
  | EqText a s => renderOperand a +++ "=" +++ quoted s
  | Quot a b => renderOperand a +++ "/" +++ renderOperand b
  | Pct a b => "(" +++ renderOperand a +++ "/" +++ renderOperand b +++ ")*100"
  | If c t e => call ifName [render c; render t; render e]
  | Sumifs r cs =>
      call sumifsName (r :: flat_map (fun rc => [fst rc; renderOperand (snd rc)]) cs)
  end.

Definition renderCell (c : CellAst) : CellValue :=
  match c with
  | NumberAst n => NumberCell n
  | TextAst s => StringCell s
  | FormulaAst e => StringCell (render e)
  end.

End Render.

(** *** The call trees of one row *)

Definition zero : Expr := Atom (Lit 0).

Definition complexSumifs (sumRange dateRange : string) (week : string)
    (brandRange campaignTypeRange : string) : Expr :=
  If (EqText (Cell "B" 3) "Yes")
     (If (EqText (Cell "B" 2) "All")
         (Sumifs sumRange [(dateRange, Text week); (brandRange, FalseLit)])
         (Sumifs sumRange [(dateRange, Text week); (brandRange, FalseLit);
                           (campaignTypeRange, Cell "B" 2)]))
     (If (EqText (Cell "B" 2) "All")
         (Sumifs sumRange [(dateRange, Text week)])
         (Sumifs sumRange [(dateRange, Text week); (campaignTypeRange, Cell "B" 2)])).

Definition sumAst (week : option string) (sumRange : string) : Expr :=
  match orNull week with
  | Some w => complexSumifs sumRange "Raw!A:A" w "Raw!E:E" "Raw!D:D"
  | None => zero
  end.

Definition ratioAst (den num : string) (r : Z) : Expr :=
  If (Gt (Cell den r) (Lit 0)) (Quot (Cell num r) (Cell den r)) zero.

Definition wowAst (c : string) (r : Z) : Expr :=
  If (Gt (Lit r) (Lit 11))
     (If (Gt (Cell c (r - 1)) (Lit 0)) (Pct (Cell c r) (Cell c (r - 1))) zero)
     zero.

Definition indexAst (c p : string) (r : Z) : Expr :=
  If (Gt (Cell p r) (Lit 0)) (Pct (Cell c r) (Cell p r)) zero.

Definition formulaRowAst (weekPairs : list WeekPair) (i : nat) : list CellAst :=
  let currentWeek := orNull (field (nth_error weekPairs i) (fun p => Some (current p))) in
  let previousWeek := orNull (field (nth_error weekPairs i) previous) in
  let r := Z.of_nat i + 11 in
  [ NumberAst (Z.of_nat i + 1);
    TextAst (orEmpty currentWeek);
    FormulaAst (sumAst currentWeek "Raw!G:G");
    FormulaAst (wowAst "C" r);
    FormulaAst (sumAst previousWeek "Raw!G:G");
    FormulaAst (indexAst "C" "E" r);
    FormulaAst (ratioAst "C" "K" r);
    FormulaAst (wowAst "G" r);
    FormulaAst (ratioAst "D" "L" r);
    FormulaAst (indexAst "G" "I" r);
    FormulaAst (sumAst currentWeek "Raw!H:H");
    FormulaAst (wowAst "K" r);
    FormulaAst (sumAst previousWeek "Raw!H:H");
    FormulaAst (indexAst "K" "M" r);
    FormulaAst (sumAst currentWeek "Raw!J:J");
    FormulaAst (wowAst "O" r);
    FormulaAst (sumAst previousWeek "Raw!J:J");
    FormulaAst (indexAst "O" "Q" r);
    FormulaAst (if truthy currentWeek then ratioAst "O" "K" r else zero);
    FormulaAst (wowAst "S" r);
    FormulaAst (if truthy previousWeek then ratioAst "Q" "M" r else zero);
    FormulaAst (indexAst "S" "U" r);
    FormulaAst (sumAst currentWeek "Raw!K:K");
    FormulaAst (wowAst "W" r);
    FormulaAst (sumAst previousWeek "Raw!K:K");
    FormulaAst (indexAst "W" "Y" r);
    FormulaAst (ratioAst "K" "W" r);
    FormulaAst (wowAst "AA" r);
    FormulaAst (ratioAst "M" "Y" r);
    FormulaAst (indexAst "AA" "AC" r) ].


(** The letters of the columns of the Raw sheet and of a summary row. *)
Definition columnNames : list string :=
  [ "A"; "B"; "C"; "D"; "E"; "F"; "G"; "H"; "I"; "J"; "K"; "L"; "M"; "N"; "O";
    "P"; "Q"; "R"; "S"; "T"; "U"; "V"; "W"; "X"; "Y"; "Z"; "AA"; "AB"; "AC"; "AD" ].

Fixpoint indexOf (col : string) (names : list string) : option nat :=
  match names with
  | [] => None
  | n :: rest => if String.eqb col n then Some O
                 else option_map S (indexOf col rest)
  end.

(** The range [Raw!X:X] of a column of the Raw sheet. *)
Definition rawRange (col : string) : string := "Raw!" +++ col +++ ":" +++ col.

End Sheet.

(* ===================================================================== *)
(** ** Sample inputs *)
(* ===================================================================== *)

Module Examples.
Import JsDate Js Ads Weekly Formula Sheet.

Local Open Scope string_scope.

(** Three locales of the source's [formulaMap]. *)
Definition formulaMapExcerpt (formulaType locale : string) : option string :=
  if String.eqb formulaType "IF" then
    if String.eqb locale "en_US" then Some "IF"
    else if String.eqb locale "fr_FR" then Some "SI"
    else if String.eqb locale "de_DE" then Some "WENN"
    else None
  else if String.eqb formulaType "SUMIFS" then
    if String.eqb locale "en_US" then Some "SUMIFS"
    else if String.eqb locale "fr_FR" then Some "SOMME.SI.ENS"
    else if String.eqb locale "de_DE" then Some "SUMMEWENN"
    else None
  else None.

Definition defaultFilters : FilterState :=
  {| selectedCampaignType := "All"; excludeBrandCampaigns := "No";
     hideYoyColumns := "No"; hideWoWColumns := "No" |}.

Definition freshSheet : World :=
  {| spreadsheetLocale := Some "en_US"; filters := defaultFilters; logger := [] |}.

Definition filteredSheet : World :=
  {| spreadsheetLocale := Some "en_US";
     filters := {| selectedCampaignType := "Search"; excludeBrandCampaigns := "Yes";
                   hideYoyColumns := "Yes"; hideWoWColumns := "No" |};
     logger := ["DEBUG: Starting createWeeklySummary"] |}.

Definition recordOf (week : option string) (micros clicks : Z) : AdsRow :=
  {| campaign := Some {| name := Some "Generic Search";
                         advertisingChannelType := Some "SEARCH" |};
     segments := Some {| week := week |};
     metrics := Some {| impressions := Some (ofZ 100); clicks := Some (ofZ clicks);
                        costMicros := Some (ofZ micros); conversions := Some (ofZ 0);
                        conversionsValue := Some (ofZ 0) |} |}.

(** The record of the specification's scenario: 1000000 micros, 10 clicks. *)
Definition specRecord : AdsRow := recordOf (Some "2025-02-01") 1000000 10.

Definition recordWithoutWeek : AdsRow := recordOf None 1000000 10.

Definition recordWithBadWeek : AdsRow := recordOf (Some "2025-W06") 1000000 10.

(** Two records of 0.004 currency units each in one week. *)
Definition smallRecords : list (option AdsRow) :=
  [Some (recordOf (Some "2025-02-03") 4000 1);
   Some (recordOf (Some "2025-02-03") 4000 1)].

(** Two weeks of 2025 with data, and a single week of 2024 with data. *)
Definition sparseYearRecords : list (option AdsRow) :=
  [Some (recordOf (Some "2025-01-13") 2000000 20);
   Some (recordOf (Some "2025-01-06") 1000000 10);
   Some (recordOf (Some "2024-01-08") 3000000 30)].

(** The month keys of a run on 2025-03-13, in the order received. *)
Definition marchMonths : list string :=
  ["2025-02-01"; "2024-03-01"; "2025-01-01"; "2024-01-01"; "2024-02-01";
   "2024-04-01"; "2025-02-01"].

(** Month keys of a run on 2025-03-13 of an account without data in
    January 2025. *)
Definition lateStartMonths : list string :=
  ["2025-02-01"; "2024-01-01"; "2024-02-01"; "2024-03-01"].

(** Two current-year weeks without comparison data. *)
Definition unpairedWeeks : list WeekPair :=
  [ {| current := "2025-01-06"; previous := None |};
    {| current := "2025-01-13"; previous := None |} ].

End Examples.

(* ===================================================================== *)
(** * Properties *)
(* ===================================================================== *)

(** ** Calendar facts *)

Module CalendarFacts.
Import Calendar.

Ltac divs := Z.to_euclidean_division_equations; lia.

Lemma DayFromYear_succ y : DayFromYear (y + 1) = DayFromYear y + DaysInYear y.
Proof.
  unfold DayFromYear, DaysInYear, isLeap.
  destruct (Z.eqb_spec (y mod 4) 0); destruct (Z.eqb_spec (y mod 100) 0);
    destruct (Z.eqb_spec (y mod 400) 0); cbv [andb orb negb];
    replace (y + 1 - 1969) with (y - 1968) by lia;
    replace (y + 1 - 1901) with (y - 1900) by lia;
    replace (y + 1 - 1601) with (y - 1600) by lia;
    replace (y + 1 - 1970) with (y - 1969) by lia;
    divs.
Qed.

Lemma DaysInYear_bounds y : 365 <= DaysInYear y <= 366.
Proof. unfold DaysInYear; destruct (isLeap y); lia. Qed.

Lemma DayFromYear_mono y y' : y <= y' -> DayFromYear y <= DayFromYear y'.
Proof. unfold DayFromYear. intros. divs. Qed.

Lemma searchYear_spec d fuel : forall y,
  DayFromYear y <= d -> d < DayFromYear (y + Z.of_nat fuel + 1) ->
  DayFromYear (searchYear fuel y d) <= d < DayFromYear (searchYear fuel y d + 1).
Proof.
  induction fuel as [|fuel IH]; intros y Hlo Hhi; simpl searchYear.
  - replace (y + Z.of_nat 0 + 1) with (y + 1) in Hhi by lia. lia.
  - destruct (Z.leb_spec (DayFromYear (y + 1)) d) as [Hle|Hgt]; [|lia].
    apply IH; [exact Hle|].
    replace (y + 1 + Z.of_nat fuel + 1) with (y + Z.of_nat (S fuel) + 1) by lia.
    exact Hhi.
Qed.

Lemma estimate_lower d : DayFromYear (1970 + Z.min (d / 365) (d / 366)) <= d.
Proof. unfold DayFromYear. divs. Qed.

Lemma estimate_upper d : d < DayFromYear (1970 + Z.max (d / 365) (d / 366) + 3).
Proof. unfold DayFromYear. divs. Qed.

(** The year of a day is the one whose days contain it. *)
Lemma YearFromDay_spec d :
  DayFromYear (YearFromDay d) <= d < DayFromYear (YearFromDay d + 1).
Proof.
  unfold YearFromDay. apply searchYear_spec; [apply estimate_lower|].
  rewrite Z2Nat.id by lia.
  replace (1970 + Z.min (d / 365) (d / 366) + (Z.abs (d / 365 - d / 366) + 2) + 1)
    with (1970 + Z.max (d / 365) (d / 366) + 3) by lia.
  apply estimate_upper.
Qed.

Lemma YearFromDay_unique d y :
  DayFromYear y <= d < DayFromYear (y + 1) -> YearFromDay d = y.
Proof.
  intros [Hlo Hhi]. pose proof (YearFromDay_spec d) as [Hlo' Hhi'].
  destruct (Z.lt_trichotomy (YearFromDay d) y) as [Hlt|[Heq|Hgt]]; [|exact Heq|].
  - pose proof (DayFromYear_mono (YearFromDay d + 1) y ltac:(lia)). lia.
  - pose proof (DayFromYear_mono (y + 1) (YearFromDay d) ltac:(lia)). lia.
Qed.

Lemma DayWithinYear_bounds d :
  0 <= DayWithinYear d < DaysInYear (YearFromDay d).
Proof.
  unfold DayWithinYear. pose proof (YearFromDay_spec d) as H.
  rewrite DayFromYear_succ in H. lia.
Qed.

Lemma MonthFromDay_bounds d : 0 <= MonthFromDay d <= 11.
Proof.
  unfold MonthFromDay.
  repeat match goal with |- context [if ?b then _ else _] => destruct b end; lia.
Qed.

Lemma MakeDay_inrange y m dt :
  0 <= m <= 11 -> MakeDay y m dt = DayFromYear y + MonthStart (isLeap y) m + dt - 1.
Proof.
  intros Hm. unfold MakeDay.
  rewrite (Z.div_small m 12), (Z.mod_small m 12), Z.add_0_r by lia. reflexivity.
Qed.

(** Year, month and day of month of a day name that day. *)
Lemma MakeDay_civil d :
  MakeDay (YearFromDay d) (MonthFromDay d) (DateFromDay d) = d.
Proof.
  rewrite MakeDay_inrange by apply MonthFromDay_bounds.
  unfold DateFromDay, DayWithinYear. lia.
Qed.

Ltac month_cases m :=
  assert (m = 0 \/ m = 1 \/ m = 2 \/ m = 3 \/ m = 4 \/ m = 5 \/ m = 6 \/ m = 7
          \/ m = 8 \/ m = 9 \/ m = 10 \/ m = 11) as Hcases by lia;
  repeat (destruct Hcases as [Hcases|Hcases]); subst m.

Lemma DateFromDay_bounds d :
  1 <= DateFromDay d <= DaysInMonth (YearFromDay d) (MonthFromDay d).
Proof.
  pose proof (DayWithinYear_bounds d) as Hw.
  unfold DateFromDay, DaysInMonth, MonthFromDay, DaysInYear in *.
  destruct (isLeap (YearFromDay d)); cbn [MonthStart] in *;
    repeat match goal with
           | |- context [if ?a <? ?b then _ else _] => destruct (Z.ltb_spec a b)
           end; cbn; lia.
Qed.

(** A day of the calendar has the year, month and day it was made from. *)
Lemma civil_MakeDay y m dt :
  0 <= m <= 11 -> 1 <= dt <= DaysInMonth y m ->
  YearFromDay (MakeDay y m dt) = y
  /\ MonthFromDay (MakeDay y m dt) = m
  /\ DateFromDay (MakeDay y m dt) = dt.
Proof.
  intros Hm Hdt. rewrite MakeDay_inrange by exact Hm.
  set (d := DayFromYear y + MonthStart (isLeap y) m + dt - 1).
  assert (Hy : YearFromDay d = y).
  { apply YearFromDay_unique. rewrite DayFromYear_succ. subst d.
    unfold DaysInMonth, DaysInYear in *.
    month_cases m; destruct (isLeap y); cbn in *; lia. }
  assert (Hmo : MonthFromDay d = m).
  { unfold MonthFromDay, DayWithinYear. rewrite Hy. subst d.
    unfold DaysInMonth in *.
    month_cases m; destruct (isLeap y); cbn in Hdt; cbn [MonthStart];
      repeat match goal with
             | |- context [if ?a <? ?b then _ else _] => destruct (Z.ltb_spec a b)
             end; lia. }
  repeat split; [exact Hy|exact Hmo|].
  unfold DateFromDay, DayWithinYear. rewrite Hmo, Hy. subst d. lia.
Qed.

End CalendarFacts.

(** ** Date keys: printing and reading are inverse *)

Module DateKeyFacts.
Import Calendar DateKey CalendarFacts.

Lemma charDigit_digitChar n : 0 <= n <= 9 -> charDigit (digitChar n) = Some n.
Proof.
  intros H.
  remember (Z.to_nat n) as k eqn:Hk.
  assert (Hn : n = Z.of_nat k) by lia. subst n. clear Hk.
  do 10 (destruct k as [|k]; [reflexivity|]). lia.
Qed.

Lemma digitChar_charDigit c n :
  charDigit c = Some n -> digitChar n = c /\ 0 <= n <= 9.
Proof.
  unfold charDigit, digitChar.
  destruct (Z.leb_spec 48 (Z.of_nat (nat_of_ascii c)));
    destruct (Z.leb_spec (Z.of_nat (nat_of_ascii c)) 57); cbn [andb];
    intros [= <-].
  split; [|lia].
  replace (48 + Z.to_nat (Z.of_nat (nat_of_ascii c) - 48))%nat
    with (nat_of_ascii c) by lia.
  apply ascii_nat_embedding.
Qed.

Lemma num2_digits n :
  0 <= n <= 99 -> num2 (digitChar (n / 10 mod 10)) (digitChar (n mod 10)) = Some n.
Proof.
  intros H. unfold num2.
  rewrite !charDigit_digitChar by divs. f_equal. divs.
Qed.

Lemma num4_digits n :
  0 <= n <= 9999 ->
  num4 (digitChar (n / 1000 mod 10)) (digitChar (n / 100 mod 10))
       (digitChar (n / 10 mod 10)) (digitChar (n mod 10)) = Some n.
Proof.
  intros H. unfold num4, num2.
  rewrite !charDigit_digitChar by divs. f_equal. divs.
Qed.

Lemma num2_inv a b n :
  num2 a b = Some n ->
  pad2 n = String a (String b EmptyString) /\ 0 <= n <= 99.
Proof.
  unfold num2, pad2.
  destruct (charDigit a) as [x|] eqn:Ha; [|discriminate].
  destruct (charDigit b) as [y|] eqn:Hb; [|discriminate].
  intros H. assert (n = 10 * x + y) by congruence. subst n. clear H.
  apply digitChar_charDigit in Ha as [<- Hx].
  apply digitChar_charDigit in Hb as [<- Hy].
  split; [|lia].
  replace ((10 * x + y) / 10 mod 10) with x by divs.
  replace ((10 * x + y) mod 10) with y by divs.
  reflexivity.
Qed.

Lemma num4_inv a b c d n :
  num4 a b c d = Some n ->
  pad4 n = String a (String b (String c (String d EmptyString))) /\ 0 <= n <= 9999.
Proof.
  unfold num4, pad4.
  destruct (num2 a b) as [x|] eqn:Hab; [|discriminate].
  destruct (num2 c d) as [y|] eqn:Hcd; [|discriminate].
  intros H. assert (n = 100 * x + y) by congruence. subst n. clear H.
  pose proof Hab as Hab'. pose proof Hcd as Hcd'.
  apply num2_inv in Hab as [Hab Hx].
  apply num2_inv in Hcd as [Hcd Hy].
  split; [|lia].
  unfold pad2 in *.
  injection Hab as Ha Hb. injection Hcd as Hc Hd.
  replace ((100 * x + y) / 1000 mod 10) with (x / 10 mod 10) by divs.
  replace ((100 * x + y) / 100 mod 10) with (x mod 10) by divs.
  replace ((100 * x + y) / 10 mod 10) with (y / 10 mod 10) by divs.
  replace ((100 * x + y) mod 10) with (y mod 10) by divs.
  congruence.
Qed.

(** Reading back a printed day gives the day, for four-digit years. *)
Lemma parse_format d :
  0 <= YearFromDay d <= 9999 -> parseDate (formatDate d) = Some d.
Proof.
  intros Hy.
  pose proof (MonthFromDay_bounds d) as Hm.
  pose proof (DateFromDay_bounds d) as Hdt.
  assert (Hdim : DaysInMonth (YearFromDay d) (MonthFromDay d) <= 31).
  { unfold DaysInMonth. revert Hm. generalize (MonthFromDay d). intros m Hm.
    month_cases m; destruct (isLeap (YearFromDay d)); cbn; lia. }
  unfold formatDate, pad4, pad2. cbn [append parseDate].
  rewrite num4_digits by exact Hy.
  rewrite !num2_digits by lia.
  replace (MonthFromDay d + 1 - 1) with (MonthFromDay d) by lia.
  change (isDash "-") with true. cbn [andb].
  destruct (Z.leb_spec 1 (MonthFromDay d + 1)); [|lia].
  destruct (Z.leb_spec (MonthFromDay d + 1) 12); [|lia].
  destruct (Z.leb_spec 1 (DateFromDay d)); [|lia].
  destruct (Z.leb_spec (DateFromDay d)
              (DaysInMonth (YearFromDay d) (MonthFromDay d))); [|lia].
  cbn [andb]. rewrite MakeDay_civil. reflexivity.
Qed.

(** A key that reads as a day is the printed form of that day. *)
Lemma format_parse s d : parseDate s = Some d -> formatDate d = s.
Proof.
  unfold parseDate.
  do 10 (destruct s as [|? s]; [discriminate|]).
  destruct s; [|discriminate].
  destruct (num4 a a0 a1 a2) as [y|] eqn:Hy; [|discriminate].
  destruct (num2 a4 a5) as [m|] eqn:Hm; [|discriminate].
  destruct (num2 a7 a8) as [dt|] eqn:Hd; [|discriminate].
  destruct (isDash a3) eqn:H3; [|discriminate].
  destruct (isDash a6) eqn:H6; [|discriminate].
  destruct (Z.leb_spec 1 m); [|discriminate].
  destruct (Z.leb_spec m 12); [|discriminate].
  destruct (Z.leb_spec 1 dt); [|discriminate].
  destruct (Z.leb_spec dt (DaysInMonth y (m - 1))); [|discriminate].
  cbn [andb]. intros [= <-].
  destruct (civil_MakeDay y (m - 1) dt) as (Ey & Em & Ed); [lia|lia|].
  unfold formatDate. rewrite Ey, Em, Ed.
  replace (m - 1 + 1) with m by lia.
  apply num4_inv in Hy as [-> _]. apply num2_inv in Hm as [-> _].
  apply num2_inv in Hd as [-> _].
  apply Ascii.eqb_eq in H3. apply Ascii.eqb_eq in H6. subst. reflexivity.
Qed.

Lemma parse_year s d : parseDate s = Some d -> 0 <= YearFromDay d <= 9999.
Proof.
  unfold parseDate.
  do 10 (destruct s as [|? s]; [discriminate|]).
  destruct s; [|discriminate].
  destruct (num4 a a0 a1 a2) as [y|] eqn:Hy; [|discriminate].
  destruct (num2 a4 a5) as [m|] eqn:Hm; [|discriminate].
  destruct (num2 a7 a8) as [dt|] eqn:Hd; [|discriminate].
  destruct (isDash a3 && isDash a6) eqn:H36; [|discriminate].
  destruct (Z.leb_spec 1 m); [|discriminate].
  destruct (Z.leb_spec m 12); [|discriminate].
  destruct (Z.leb_spec 1 dt); [|discriminate].
  destruct (Z.leb_spec dt (DaysInMonth y (m - 1))); [|discriminate].
  cbn [andb]. intros [= <-].
  destruct (civil_MakeDay y (m - 1) dt) as (Ey & _); [lia|lia|].
  rewrite Ey. apply num4_inv in Hy. lia.
Qed.

End DateKeyFacts.


(** ** Weekly pairing *)

Module WeeklyFacts.
Import Calendar DateKey JsDate Js Ads Weekly.

Lemma arrayIncludes_In x l : arrayIncludes x l = true <-> In x l.
Proof.
  unfold arrayIncludes. rewrite existsb_exists. split.
  - intros (y & Hy & Heq). apply String.eqb_eq in Heq. subst. exact Hy.
  - intros H. exists x. split; [exact H|apply String.eqb_refl].
Qed.

Lemma orNull_some v w : orNull v = Some w -> v = Some w.
Proof. unfold orNull. destruct (truthy v); [auto|discriminate]. Qed.

Section Clocks.

Variable scriptZone : Zone.
Variable accountTimeZone : option Zone.
Variable dateParse : string -> option Z.

Section Search.

Variable rawData : list RawRow.
Variable goal : Z.

Lemma SearchInv_initial : SearchInv dateParse goal [] initialSearch.
Proof. exact I. Qed.

(** A step of the search keeps a key that passed the test, or takes one
    that passes it. *)
Lemma checkWeek_inv seen st w :
  SearchInv dateParse goal seen st ->
  SearchInv dateParse goal (seen ++ [w]) (checkWeek dateParse rawData goal st w).
Proof.
  unfold SearchInv, checkWeek. intros Hinv.
  assert (Hkeep : match closestWeek st with
                  | Some w0 =>
                      In w0 (seen ++ [w])
                      /\ exists t, dateParse w0 = Some t
                           /\ leb (daysDiffOf t goal) (ofZ 7) = true
                  | None => True
                  end).
  { destruct (closestWeek st) as [w0|]; [|exact I].
    destruct Hinv as [Hin Ht]. split; [apply in_or_app; left; exact Hin|exact Ht]. }
  destruct (dateParse w) as [weekDate|] eqn:Hw; [|exact Hkeep].
  destruct (leb (daysDiffOf weekDate goal) (ofZ 7)) eqn:H7; cbn [andb]; [|exact Hkeep].
  destruct (ltb (daysDiffOf weekDate goal) (smallestDiff st)); [|exact Hkeep].
  cbn [closestWeek]. split; [apply in_or_app; right; apply in_eq|].
  exists weekDate. split; [exact Hw|exact H7].
Qed.

Lemma search_inv l : forall seen st,
  SearchInv dateParse goal seen st ->
  SearchInv dateParse goal (seen ++ l) (fold_left (checkWeek dateParse rawData goal) l st).
Proof.
  induction l as [|w l IH]; intros seen st Hinv; cbn [fold_left].
  - rewrite app_nil_r. exact Hinv.
  - replace (seen ++ w :: l) with ((seen ++ [w]) ++ l)
      by (rewrite <- app_assoc; reflexivity).
    apply IH, checkWeek_inv, Hinv.
Qed.

Lemma search_result l :
  SearchInv dateParse goal l (fold_left (checkWeek dateParse rawData goal) l initialSearch).
Proof. apply (search_inv l [] initialSearch SearchInv_initial). Qed.

End Search.

(** Whatever [findClosestPreviousYearWeek] returns is a key of the list:
    the printed target, or a key that passed the test [daysDiff <= 7]
    against the target. *)
Lemma find_some cur prev raw w :
  findClosestPreviousYearWeek scriptZone accountTimeZone dateParse cur prev raw = Some w ->
  In w prev
  /\ exists c, dateParse cur = Some c
       /\ (Utilities_formatDate accountTimeZone (exactPreviousDate scriptZone c) = Some w
           \/ exists t, dateParse w = Some t
                /\ leb (daysDiffOf t (exactPreviousDate scriptZone c)) (ofZ 7) = true).
Proof.
  unfold findClosestPreviousYearWeek.
  destruct (dateParse cur) as [c|]; [|discriminate].
  destruct (Utilities_formatDate accountTimeZone (exactPreviousDate scriptZone c))
    as [key|] eqn:Hkey; [|discriminate].
  destruct (arrayIncludes key prev) eqn:Hin.
  - intros [= <-]. apply arrayIncludes_In in Hin.
    split; [exact Hin|]. exists c. split; [reflexivity|]. left. exact Hkey.
  - intros Hres.
    pose proof (search_result raw (exactPreviousDate scriptZone c) prev) as Hinv.
    unfold SearchInv in Hinv. rewrite Hres in Hinv. cbn [app] in Hinv.
    destruct Hinv as [Hw Ht]. split; [exact Hw|]. exists c. split; [reflexivity|].
    right. exact Ht.
Qed.

(** The loop over the current weeks pushes one pair per week. *)
Lemma pairStep_push prev raw acc c :
  pairStep scriptZone accountTimeZone dateParse prev raw acc c
  = acc ++ [pairFor scriptZone accountTimeZone dateParse prev raw c].
Proof.
  unfold pairStep, pairFor, orNull.
  destruct (truthy (findClosestPreviousYearWeek scriptZone accountTimeZone dateParse
                      c prev raw)); reflexivity.
Qed.

Lemma pairWeeks_from prev raw cur : forall acc,
  fold_left (pairStep scriptZone accountTimeZone dateParse prev raw) cur acc
  = acc ++ map (pairFor scriptZone accountTimeZone dateParse prev raw) cur.
Proof.
  induction cur as [|c cur IH]; intros acc; cbn [fold_left map].
  - rewrite app_nil_r. reflexivity.
  - rewrite IH, pairStep_push, <- app_assoc. reflexivity.
Qed.

Lemma pairWeeks_map cur prev raw :
  pairWeeks scriptZone accountTimeZone dateParse cur prev raw
  = map (pairFor scriptZone accountTimeZone dateParse prev raw) cur.
Proof. unfold pairWeeks. rewrite pairWeeks_from. reflexivity. Qed.

End Clocks.

(** The scenario of the specification: 2025-01-06 is paired with
    2024-01-08 and 2025-01-13 with 2024-01-15, on the clock of Greenwich
    and on that of Los Angeles. *)
Example scenario_pairs :
  pairWeeks utc (Some utc) parseIso ["2025-01-06"; "2025-01-13"]%string
            ["2024-01-01"; "2024-01-08"; "2024-01-15"]%string []
  = [ {| current := "2025-01-06"; previous := Some "2024-01-08"%string |};
      {| current := "2025-01-13"; previous := Some "2024-01-15"%string |} ]
  /\ pairWeeks pacific (Some pacific) parseIso ["2025-01-06"; "2025-01-13"]%string
               ["2024-01-01"; "2024-01-08"; "2024-01-15"]%string []
     = [ {| current := "2025-01-06"; previous := Some "2024-01-08"%string |};
         {| current := "2025-01-13"; previous := Some "2024-01-15"%string |} ].
Proof. vm_compute. split; reflexivity. Qed.

(** C1 (as stated, refuted). Two current weeks can be given the same
    comparison bucket: in a run of 2025 over records of the weeks
    2025-01-06, 2025-01-13 and 2024-01-08, both weeks of 2025 get
    2024-01-08, on the clock of Greenwich and on that of Los Angeles
    alike. *)
Lemma comparison_reuse_counterexample :
  ~ NoDup (comparisonBuckets
             (weekPairsOf utc (Some utc) parseIso 2025
                (processData [] utc (Some utc) parseIso Examples.sparseYearRecords)))
  /\ ~ NoDup (comparisonBuckets
                (weekPairsOf pacific (Some pacific) parseIso 2025
                   (processData [] pacific (Some pacific) parseIso
                      Examples.sparseYearRecords))).
Proof.
  assert (Hu : comparisonBuckets
                 (weekPairsOf utc (Some utc) parseIso 2025
                    (processData [] utc (Some utc) parseIso Examples.sparseYearRecords))
               = ["2024-01-08"; "2024-01-08"]%string) by (vm_compute; reflexivity).
  assert (Hp : comparisonBuckets
                 (weekPairsOf pacific (Some pacific) parseIso 2025
                    (processData [] pacific (Some pacific) parseIso
                       Examples.sparseYearRecords))
               = ["2024-01-08"; "2024-01-08"]%string) by (vm_compute; reflexivity).
  rewrite Hu, Hp.
  split; intros Hnd; inversion Hnd as [|x l Hnotin _]; apply Hnotin; left; reflexivity.
Qed.

(** C1 (amended). The pairing keeps no record of claimed buckets: the pair
    of a current week is computed from that week and the whole comparison
    list alone, and its comparison bucket, when it has one, is a bucket of
    the list: the printed one-year-back target of the week itself, or a
    bucket that passed the test [daysDiff <= 7] against that target. This
    holds on every clock and for every host reading of the keys. *)
Theorem comparison_chosen_per_week scriptZone accountTimeZone dateParse cur prev raw :
  pairWeeks scriptZone accountTimeZone dateParse cur prev raw
  = map (pairFor scriptZone accountTimeZone dateParse prev raw) cur
  /\ forall p w,
       In p (pairWeeks scriptZone accountTimeZone dateParse cur prev raw) ->
       previous p = Some w ->
       In w prev
       /\ exists c, dateParse (current p) = Some c
            /\ (Utilities_formatDate accountTimeZone (exactPreviousDate scriptZone c) = Some w
                \/ exists t, dateParse w = Some t
                     /\ leb (daysDiffOf t (exactPreviousDate scriptZone c)) (ofZ 7) = true).
Proof.
  split; [apply pairWeeks_map|].
  intros p w Hp Hw. rewrite pairWeeks_map in Hp.
  apply in_map_iff in Hp as (cw & <- & Hcw). cbn [pairFor previous current] in *.
  apply orNull_some in Hw.
  exact (find_some scriptZone accountTimeZone dateParse cw prev raw w Hw).
Qed.

Lemma comparison_chosen_per_week_witness :
  In "2024-01-08"%string ["2024-01-01"; "2024-01-08"]%string
  /\ exists c,
       parseIso "2025-01-13" = Some c
       /\ (Utilities_formatDate (Some pacific) (exactPreviousDate pacific c)
            = Some "2024-01-08"%string
           \/ exists t, parseIso "2024-01-08" = Some t
                /\ leb (daysDiffOf t (exactPreviousDate pacific c)) (ofZ 7) = true).
Proof.
  apply (proj2 (comparison_chosen_per_week pacific (Some pacific) parseIso
                  ["2025-01-06"; "2025-01-13"]%string
                  ["2024-01-01"; "2024-01-08"]%string [])
               {| current := "2025-01-13"; previous := Some "2024-01-08"%string |}
               "2024-01-08"%string).
  - vm_compute. right. left. reflexivity.
  - reflexivity.
Defined.



(** C4. Pairing totality: the pairing loop yields exactly one pair per
    current-year week, in order (none dropped, none duplicated), and a week
    for which no comparison bucket is found still has its pair, whose
    comparison bucket is null. *)
Theorem pairing_total scriptZone accountTimeZone dateParse cur prev raw :
  map current (pairWeeks scriptZone accountTimeZone dateParse cur prev raw) = cur
  /\ List.length (pairWeeks scriptZone accountTimeZone dateParse cur prev raw)
     = List.length cur
  /\ forall i c, nth_error cur i = Some c ->
       findClosestPreviousYearWeek scriptZone accountTimeZone dateParse c prev raw = None ->
       nth_error (pairWeeks scriptZone accountTimeZone dateParse cur prev raw) i
       = Some {| current := c; previous := None |}.
Proof.
  rewrite pairWeeks_map. split; [|split].
  - rewrite map_map. cbn [pairFor current]. apply map_id.
  - apply length_map.
  - intros i c Hi Hnone. rewrite nth_error_map, Hi. cbn [option_map].
    unfold pairFor. rewrite Hnone. reflexivity.
Qed.

Lemma pairing_total_witness :
  nth_error (pairWeeks utc (Some utc) parseIso ["2025-01-06"; "2025-01-13"]%string
                       ["2024-01-08"; "2023-12-25"]%string [])
            1
  = Some {| current := "2025-01-13"; previous := Some "2024-01-08"%string |}
  /\ nth_error (pairWeeks utc (Some utc) parseIso ["2025-01-06"; "2025-02-10"]%string
                          ["2024-01-08"]%string []) 1
     = Some {| current := "2025-02-10"; previous := None |}.
Proof.
  split; [vm_compute; reflexivity|].
  apply (pairing_total utc (Some utc) parseIso
           ["2025-01-06"; "2025-02-10"]%string ["2024-01-08"]%string []);
    vm_compute; reflexivity.
Defined.

End WeeklyFacts.

(** ** [processData] *)

Module AdsFacts.
Import Calendar DateKey JsDate Js Ads.

Section Facts.

Variable BRAND_CAMPAIGNS : list string.
Variable scriptZone : Zone.
Variable accountTimeZone : option Zone.
Variable dateParse : string -> option Z.

Lemma rowObjects_length rows : (List.length (rowObjects rows) <= List.length rows)%nat.
Proof. induction rows as [|[?|] ? IHrows]; simpl; lia. Qed.

Lemma processLoop_from rows : forall st,
  let st' := fold_left (step BRAND_CAMPAIGNS scriptZone accountTimeZone dateParse) rows st in
  data st'
  = (data st ++ map (processRow BRAND_CAMPAIGNS scriptZone accountTimeZone dateParse)
                    (rowObjects rows))%list
  /\ count st' = (count st + List.length rows)%nat
  /\ errorLines st' = (errorLines st + (List.length rows - List.length (rowObjects rows)))%nat.
Proof.
  induction rows as [|r rows IH]; intros st; cbn [fold_left].
  - cbn. rewrite app_nil_r. repeat split; lia.
  - specialize (IH (step BRAND_CAMPAIGNS scriptZone accountTimeZone dateParse st r)).
    cbn zeta in IH.
    destruct IH as (Hd & Hc & He). cbn zeta. rewrite Hd, Hc, He.
    pose proof (rowObjects_length rows) as Hlen.
    destruct r as [row|].
    + change (rowObjects (Some row :: rows)) with (row :: rowObjects rows).
      cbn [step data count errorLines List.length map].
      rewrite <- app_assoc. split; [reflexivity|]. split; lia.
    + change (rowObjects (None :: rows)) with (rowObjects rows).
      cbn [step data count errorLines List.length map].
      split; [reflexivity|]. split; lia.
Qed.

Lemma processData_spec rows :
  processData BRAND_CAMPAIGNS scriptZone accountTimeZone dateParse rows
  = map (processRow BRAND_CAMPAIGNS scriptZone accountTimeZone dateParse) (rowObjects rows).
Proof.
  unfold processData, processLoop.
  destruct (processLoop_from rows initialState) as (Hd & _). exact Hd.
Qed.

Lemma processSummary_spec rows :
  totalRecords (processSummary BRAND_CAMPAIGNS scriptZone accountTimeZone dateParse rows)
  = List.length rows
  /\ processedRecords
       (processSummary BRAND_CAMPAIGNS scriptZone accountTimeZone dateParse rows)
     = List.length (rowObjects rows).
Proof.
  unfold processSummary, processLoop. cbn [totalRecords processedRecords].
  destruct (processLoop_from rows initialState) as (Hd & Hc & _).
  cbn zeta in *. rewrite Hd, Hc. cbn. rewrite length_map. split; reflexivity.
Qed.

End Facts.

End AdsFacts.

(** ** The formula rows as written by the builder *)

Module FormulaFacts.
Import Js Ads Weekly Formula Sheet.

Section Rows.

Variable formulaMap : string -> string -> option string.

Let ifName (w : World) : string := functionNameFor formulaMap "IF" (localeOf w).
Let sumifsName (w : World) : string := functionNameFor formulaMap "SUMIFS" (localeOf w).

(** The cells of a row are the texts of its call trees. *)
Lemma formulaRow_render weekPairs i w :
  evalState (formulaRow formulaMap weekPairs i) w
  = map (renderCell (ifName w) (sumifsName w)) (formulaRowAst weekPairs i).
Proof.
  unfold formulaRow, formulaRowAst.
  destruct (orNull (field (nth_error weekPairs i) (fun p => Some (current p))))
    as [[|c cw]|];
    destruct (orNull (field (nth_error weekPairs i) previous)) as [[|p pw]|];
    reflexivity.
Qed.

(** Building a row only adds lines to the log. *)
Lemma formulaRow_frame weekPairs i w :
  spreadsheetLocale (execState (formulaRow formulaMap weekPairs i) w) = spreadsheetLocale w
  /\ filters (execState (formulaRow formulaMap weekPairs i) w) = filters w.
Proof.
  unfold formulaRow.
  destruct (orNull (field (nth_error weekPairs i) (fun p => Some (current p))))
    as [[|c cw]|];
    destruct (orNull (field (nth_error weekPairs i) previous)) as [[|p pw]|];
    split; reflexivity.
Qed.

Lemma run_bind {A B} (m : state World A) (k : A -> state World B) w :
  runState (bind m k) w
  = runState (k (evalState m w)) (execState m w).
Proof.
  unfold evalState, execState. cbn. destruct (runState m w). reflexivity.
Qed.

Lemma formulaLoop_spec weekPairs n : forall i acc w,
  evalState (formulaLoop formulaMap weekPairs n i acc) w
  = (acc ++ map (fun k => map (renderCell (ifName w) (sumifsName w))
                              (formulaRowAst weekPairs k)) (seq i n))%list
  /\ spreadsheetLocale (execState (formulaLoop formulaMap weekPairs n i acc) w)
     = spreadsheetLocale w.
Proof.
  induction n as [|n IH]; intros i acc w; cbn [formulaLoop seq map].
  - split; [cbn; rewrite app_nil_r; reflexivity|reflexivity].
  - unfold evalState, execState in *. rewrite run_bind.
    destruct (formulaRow_frame weekPairs i w) as [Hloc _].
    specialize (IH (S i) (acc ++ [evalState (formulaRow formulaMap weekPairs i) w])%list
                   (execState (formulaRow formulaMap weekPairs i) w)).
    destruct IH as [IHrows IHloc]. rewrite IHrows, IHloc. split; [|exact Hloc].
    unfold ifName, sumifsName, localeOf. rewrite Hloc.
    rewrite <- app_assoc. cbn [app]. rewrite formulaRow_render.
    reflexivity.
Qed.

(** The rows of a run: the call trees of the pairs, in the spreadsheet's
    function names. *)
Lemma buildFormulaData_spec weekPairs w :
  evalState (buildFormulaData formulaMap weekPairs) w
  = map (fun k => map (renderCell (ifName w) (sumifsName w))
                      (formulaRowAst weekPairs k)) (seq 0 (List.length weekPairs))
  /\ spreadsheetLocale (execState (buildFormulaData formulaMap weekPairs) w)
     = spreadsheetLocale w.
Proof.
  unfold buildFormulaData. unfold evalState, execState. rewrite run_bind.
  destruct (formulaLoop_spec weekPairs (List.length weekPairs) 0 []
              (execState (debugLog "Formula generation setup") w)) as [Hrows Hloc].
  unfold evalState, execState in *. rewrite Hrows, Hloc. split; reflexivity.
Qed.

End Rows.

(** C9. Determinism of the formula rows: for given week pairs, the rows
    built in two runs are the same cell by cell whenever the spreadsheet
    has the same locale in both, whatever the filter cells hold and
    whatever was logged before; in particular a second run, started where
    the first one ended, builds the same rows again. *)
Theorem formula_rows_deterministic formulaMap weekPairs :
  (forall w1 w2, spreadsheetLocale w1 = spreadsheetLocale w2 ->
     evalState (buildFormulaData formulaMap weekPairs) w1
     = evalState (buildFormulaData formulaMap weekPairs) w2)
  /\ (forall w,
        evalState (buildFormulaData formulaMap weekPairs)
                  (execState (buildFormulaData formulaMap weekPairs) w)
        = evalState (buildFormulaData formulaMap weekPairs) w).
Proof.
  assert (H : forall w1 w2, spreadsheetLocale w1 = spreadsheetLocale w2 ->
            evalState (buildFormulaData formulaMap weekPairs) w1
            = evalState (buildFormulaData formulaMap weekPairs) w2).
  { intros w1 w2 Hloc.
    destruct (buildFormulaData_spec formulaMap weekPairs w1) as [-> _].
    destruct (buildFormulaData_spec formulaMap weekPairs w2) as [-> _].
    unfold localeOf. rewrite Hloc. reflexivity. }
  split; [exact H|].
  intros w. apply H. apply buildFormulaData_spec.
Qed.

End FormulaFacts.


(** ** The stored records and the formulas of a row *)

Module RecordFacts.
Import Calendar DateKey JsDate Js Ads Weekly Formula Sheet Examples.
Import AdsFacts FormulaFacts.

(** C5 (the code departs from the claim). The previous-year Average CPC
    cell of a row, column I, is [IF(D>0, L/D, 0)] whatever the row: it
    tests and divides by the week-over-week cell of clicks (D) and divides
    the week-over-week cell of cost (L), while the previous-year clicks and
    cost are in E and M. For the second of two weeks without comparison
    data, E12 and M12 are the literal 0 and I12 still divides L12 by D12;
    the CPC index J12 divides by I12. *)
Theorem previous_cpc_divides_wow_cells :
  (forall formulaMap weekPairs i w,
     exists currentWeek previousWeek,
       nth_error (evalState (formulaRow formulaMap weekPairs i) w) 8
       = Some (renderCell (functionNameFor formulaMap "IF" (localeOf w))
                          (functionNameFor formulaMap "SUMIFS" (localeOf w))
                          (FormulaAst (ratioAst "D" "L" (Z.of_nat i + 11))))
       /\ nth_error (formulaRowAst weekPairs i) 3
          = Some (FormulaAst (wowAst "C" (Z.of_nat i + 11)))
       /\ nth_error (formulaRowAst weekPairs i) 11
          = Some (FormulaAst (wowAst "K" (Z.of_nat i + 11)))
       /\ nth_error (formulaRowAst weekPairs i) 2
          = Some (FormulaAst (sumAst currentWeek "Raw!G:G"))
       /\ nth_error (formulaRowAst weekPairs i) 4
          = Some (FormulaAst (sumAst previousWeek "Raw!G:G"))
       /\ nth_error (formulaRowAst weekPairs i) 12
          = Some (FormulaAst (sumAst previousWeek "Raw!H:H")))
  /\ (let row := evalState (formulaRow formulaMapExcerpt unpairedWeeks 1) freshSheet in
      nth_error row 4 = Some (StringCell "0")
      /\ nth_error row 12 = Some (StringCell "0")
      /\ nth_error row 3 = Some (StringCell "=IF(12>11,=IF(C11>0,(C12/C11)*100,0),0)")
      /\ nth_error row 11 = Some (StringCell "=IF(12>11,=IF(K11>0,(K12/K11)*100,0),0)")
      /\ nth_error row 8 = Some (StringCell "=IF(D12>0,L12/D12,0)")
      /\ nth_error row 9 = Some (StringCell "=IF(I12>0,(G12/I12)*100,0)")).
Proof.
  split.
  - intros formulaMap weekPairs i w.
    exists (orNull (field (nth_error weekPairs i) (fun p => Some (current p)))),
           (orNull (field (nth_error weekPairs i) previous)).
    rewrite formulaRow_render, nth_error_map.
    repeat split; reflexivity.
  - vm_compute. repeat split; reflexivity.
Qed.

(** C8 (as stated, refuted). A record without period start is not skipped
    and not counted: it is stored with an empty key, the summary of the run
    shows no skipped record and no error line; and a key that is not a date
    but holds the digits of the year becomes a row of the report. This is
    so on the clock of Greenwich and, with the account in Tokyo, on the
    clock of Los Angeles. *)
Lemma skipped_count_counterexample :
  let rows := [Some recordWithoutWeek; Some specRecord] in
  List.length (filter malformedPeriodStart (rowObjects rows)) = 1%nat
  /\ (skippedRecords (processSummary [] utc (Some utc) parseIso rows) = 0%nat
      /\ errorLines (processLoop [] utc (Some utc) parseIso rows) = 0%nat
      /\ map weekStart (processData [] utc (Some utc) parseIso rows)
         = [""; "2025-02-01"]%string
      /\ map current
           (weekPairsOf utc (Some utc) parseIso 2025
              (processData [] utc (Some utc) parseIso [Some recordWithBadWeek]))
         = ["2025-W06"]%string)
  /\ (skippedRecords (processSummary [] pacific (Some tokyo) parseIso rows) = 0%nat
      /\ errorLines (processLoop [] pacific (Some tokyo) parseIso rows) = 0%nat
      /\ map weekStart (processData [] pacific (Some tokyo) parseIso rows)
         = [""; "2025-02-01"]%string
      /\ map current
           (weekPairsOf pacific (Some tokyo) parseIso 2025
              (processData [] pacific (Some tokyo) parseIso [Some recordWithBadWeek]))
         = ["2025-W06"]%string).
Proof. vm_compute. repeat split; reflexivity. Qed.

Lemma toString_nonempty n : toString n <> EmptyString.
Proof.
  unfold toString. destruct (Z.to_int n) as [u|u]; cbn.
  - destruct u; discriminate.
  - discriminate.
Qed.

Lemma empty_key_in_no_year year weeks : ~ In EmptyString (weeksOfYear year weeks).
Proof.
  unfold weeksOfYear. intros H. apply filter_In in H as [_ H].
  cbn [includes] in H. rewrite orb_false_r in H.
  pose proof (toString_nonempty year) as Hne.
  destruct (toString year); [contradiction Hne; reflexivity|discriminate H].
Qed.

(** C8 (amended). [processData] skips no record for its period start: every
    row object yields one raw row, in order, whose key is the period start
    as received and empty when it is missing, so processing always goes on
    to the remaining records; the summary reports the number of rows read
    and the number of rows stored, which differ only by the rows that threw;
    and an empty key belongs to neither year's list of weeks, so it gives
    no row of the report. *)
Theorem malformed_records_kept BRAND scriptZone accountTimeZone dateParse rows year :
  processData BRAND scriptZone accountTimeZone dateParse rows
  = map (processRow BRAND scriptZone accountTimeZone dateParse) (rowObjects rows)
  /\ (forall row, weekStart (processRow BRAND scriptZone accountTimeZone dateParse row)
                  = orEmpty (field (segments row) week))
  /\ totalRecords (processSummary BRAND scriptZone accountTimeZone dateParse rows)
     = List.length rows
  /\ processedRecords (processSummary BRAND scriptZone accountTimeZone dateParse rows)
     = List.length (rowObjects rows)
  /\ ~ In EmptyString
         (weeksOfYear year
            (allWeekDates (processData BRAND scriptZone accountTimeZone dateParse rows)))
  /\ ~ In EmptyString
         (map current
            (weekPairsOf scriptZone accountTimeZone dateParse year
               (processData BRAND scriptZone accountTimeZone dateParse rows))).
Proof.
  split; [apply processData_spec|].
  split; [intros row; reflexivity|].
  split; [apply processSummary_spec|].
  split; [apply processSummary_spec|].
  split; [apply empty_key_in_no_year|].
  unfold weekPairsOf. rewrite WeeklyFacts.pairWeeks_map, map_map.
  cbn [pairFor current]. rewrite map_id.
  apply empty_key_in_no_year.
Qed.

(** C10. Per-record rounding: the cost stored for a record is its micros
    divided by 1,000,000 and rounded to two decimals with
    [Math.round(x * 100) / 100], and its conversion value is rounded the
    same way; the three stored ratios are computed from these rounded
    values; the rounded cost and conversion value are entries 7 and 10 of
    the row pushed, columns H and K of the Raw sheet, which are the ranges
    that the cost and conversion-value cells of a summary row sum. In the
    scenario of 1000000 micros and 10 clicks the cost is 1.00 and the cost
    per click 0.10; 1005000 micros are stored as 1.00, the product being
    just below 100.5 in binary64; two records of 0.004 are stored as 0 and
    add up to 0 in the spend of their week, where their total would be
    stored as 0.01; and 0.015 over 4 clicks is stored as 0.02 and gives the
    cost per click 0.01, where the unrounded amount would give 0. *)
Theorem cost_rounded_per_record :
  (forall BRAND scriptZone accountTimeZone dateParse row,
     let r := processRow BRAND scriptZone accountTimeZone dateParse row in
     let micros := numberOrZero (field (metrics row) costMicros) in
     let value := numberOrZero (field (metrics row) conversionsValue) in
     cost r = round2 (div micros (ofZ 1000000))
     /\ conversionValue r = round2 value
     /\ costPerClick r
        = (if gtb (rClicks r) (ofZ 0) then round2 (div (cost r) (rClicks r)) else ofZ 0)
     /\ costPerConversion r
        = (if gtb (rConversions r) (ofZ 0)
           then round2 (div (cost r) (rConversions r)) else ofZ 0)
     /\ roas r
        = (if gtb (cost r) (ofZ 0) then round2 (div (conversionValue r) (cost r)) else ofZ 0)
     /\ nth_error (newRow r) 7 = Some (RawNumber (cost r))
     /\ nth_error (newRow r) 10 = Some (RawNumber (conversionValue r)))
  /\ (nth_error columnNames 7 = Some "H"%string
      /\ nth_error columnNames 10 = Some "K"%string
      /\ forall weekPairs i,
           exists currentWeek previousWeek,
             nth_error (formulaRowAst weekPairs i) 10
             = Some (FormulaAst (sumAst currentWeek (rawRange "H")))
             /\ nth_error (formulaRowAst weekPairs i) 12
                = Some (FormulaAst (sumAst previousWeek (rawRange "H")))
             /\ nth_error (formulaRowAst weekPairs i) 22
                = Some (FormulaAst (sumAst currentWeek (rawRange "K")))
             /\ nth_error (formulaRowAst weekPairs i) 24
                = Some (FormulaAst (sumAst previousWeek (rawRange "K"))))
  /\ (let r := processRow [] utc (Some utc) parseIso specRecord in
      cost r = ofZ 1 /\ costPerClick r = div (ofZ 1) (ofZ 10))
  /\ (let r := processRow [] utc (Some utc) parseIso
                 (recordOf (Some "2025-02-03"%string) 1005000 1) in
      ltb (mul (div (ofZ 1005000) (ofZ 1000000)) (ofZ 100)) (div (ofZ 201) (ofZ 2)) = true
      /\ cost r = ofZ 1)
  /\ (let raw := processData [] utc (Some utc) parseIso smallRecords in
      map cost raw = [ofZ 0; ofZ 0]
      /\ closestWeekData (checkWeek parseIso raw (MakeDate 20122 0) initialSearch
                                    "2025-02-03"%string)
         = Some {| records := 2; spend := ofZ 0 |}
      /\ round2 (div (ofZ (4000 + 4000)) (ofZ 1000000)) = div (ofZ 1) (ofZ 100))
  /\ (let r := processRow [] utc (Some utc) parseIso
                 (recordOf (Some "2025-02-03"%string) 15000 4) in
      cost r = div (ofZ 2) (ofZ 100)
      /\ costPerClick r = div (ofZ 1) (ofZ 100)
      /\ round2 (div (div (ofZ 15000) (ofZ 1000000)) (ofZ 4)) = ofZ 0).
Proof.
  split; [|split; [|split; [|split; [|split]]]].
  - intros BRAND scriptZone accountTimeZone dateParse row r micros value.
    subst r micros value. repeat split; reflexivity.
  - split; [reflexivity|]. split; [reflexivity|].
    intros weekPairs i.
    exists (orNull (field (nth_error weekPairs i) (fun p => Some (current p)))),
           (orNull (field (nth_error weekPairs i) previous)).
    repeat split; reflexivity.
  - vm_compute. split; reflexivity.
  - vm_compute. split; reflexivity.
  - vm_compute. repeat split; reflexivity.
  - vm_compute. repeat split; reflexivity.
Qed.

(** The rows built for the scenario's week do not depend on the filter
    cells or on what was logged before. *)
Lemma formula_rows_deterministic_witness :
  let pairs := weekPairsOf utc (Some utc) parseIso 2025
                 (processData [] utc (Some utc) parseIso [Some specRecord]) in
  evalState (buildFormulaData formulaMapExcerpt pairs) freshSheet
  = evalState (buildFormulaData formulaMapExcerpt pairs) filteredSheet.
Proof.
  intros pairs.
  exact (proj1 (FormulaFacts.formula_rows_deterministic formulaMapExcerpt pairs)
               freshSheet filteredSheet eq_refl).
Defined.

End RecordFacts.

(** ** The monthly pairing, and the end of the weekly range *)

Module PeriodFacts.
Import Calendar DateKey JsDate Js Ads Weekly Examples CalendarFacts.

(** *** The number of the last complete month *)

(** The day before the first of a month is in the month before, and in
    December of the year before for January. *)
Lemma lastCompleteMonth_month today :
  MonthFromDay (Monthly.lastCompleteMonth today)
  = (if MonthFromDay today =? 0 then 11 else MonthFromDay today - 1).
Proof.
  unfold Monthly.lastCompleteMonth.
  pose proof (MonthFromDay_bounds today) as Hm. revert Hm.
  generalize (MonthFromDay today) (YearFromDay today). intros m y Hm.
  destruct (Z.eqb_spec m 0) as [->|Hne].
  - assert (E : MakeDay y 0 0 = MakeDay (y - 1) 11 31).
    { rewrite !MakeDay_inrange by lia.
      pose proof (DayFromYear_succ (y - 1)) as Hs.
      replace (y - 1 + 1) with y in Hs by lia.
      unfold DaysInYear in Hs. destruct (isLeap (y - 1)); cbn; lia. }
    rewrite E.
    destruct (civil_MakeDay (y - 1) 11 31) as (_ & Hmonth & _); [lia| |exact Hmonth].
    unfold DaysInMonth. destruct (isLeap (y - 1)); cbn; lia.
  - assert (E : MakeDay y m 0 = MakeDay y (m - 1) (DaysInMonth y (m - 1))).
    { rewrite !MakeDay_inrange by lia. unfold DaysInMonth.
      replace (m - 1 + 1) with m by lia. lia. }
    rewrite E.
    destruct (civil_MakeDay y (m - 1) (DaysInMonth y (m - 1))) as (_ & Hmonth & _);
      [lia| |exact Hmonth].
    unfold DaysInMonth. replace (m - 1 + 1) with m by lia.
    month_cases m; destruct (isLeap y); cbn; lia.
Qed.

Lemma currentMonthNumber_spec today :
  Monthly.currentMonthNumber today
  = (if MonthFromDay today =? 0 then 12 else MonthFromDay today).
Proof.
  unfold Monthly.currentMonthNumber. rewrite lastCompleteMonth_month.
  destruct (MonthFromDay today =? 0); lia.
Qed.

(** *** The rows of the monthly summary *)

Lemma monthRows_from cur prev l : forall acc,
  fold_left (fun formulaData i => formulaData ++ [Monthly.monthRow cur prev i]) l acc
  = acc ++ map (Monthly.monthRow cur prev) l.
Proof.
  induction l as [|i l IH]; intros acc; cbn [fold_left map].
  - rewrite app_nil_r. reflexivity.
  - rewrite IH, <- app_assoc. reflexivity.
Qed.

Lemma monthRows_spec cur prev :
  Monthly.monthRows cur prev = map (Monthly.monthRow cur prev) (seq 0 (List.length cur)).
Proof. unfold Monthly.monthRows. rewrite monthRows_from. reflexivity. Qed.

Lemma createMonthlySummary_rows today rawMonths :
  Monthly.createMonthlySummary today rawMonths
  = Monthly.monthRows (Monthly.limitedCurrentYearMonths today rawMonths)
                      (Monthly.previousYearMonths today rawMonths).
Proof. reflexivity. Qed.

(** Row [i] of a summary of lists cut to [k]: the [i]-th entries of the
    lists as they were before the cut. *)
Lemma monthRows_cut (k : nat) allCur allPrev i r :
  nth_error (Monthly.monthRows (firstn k allCur) (firstn k allPrev)) i = Some r ->
  (i < k)%nat /\ (i < List.length allCur)%nat
  /\ r = Monthly.monthRow allCur allPrev i.
Proof.
  rewrite monthRows_spec, nth_error_map, nth_error_seq, length_firstn.
  destruct (Nat.ltb_spec i (Nat.min k (List.length allCur))) as [Hi|Hi]; [|discriminate].
  cbn [option_map Nat.add]. intros [= <-].
  split; [lia|]. split; [lia|].
  unfold Monthly.monthRow. rewrite !nth_error_firstn.
  destruct (Nat.ltb_spec i k); [reflexivity|lia].
Qed.

(** C6 (as stated, refuted). The comparison-year list is not cut to the
    count of the current-year list: in a run on 2025-03-13 over the months
    2025-02, 2024-01, 2024-02 and 2024-03 the current-year list has one
    month and the comparison-year list two, and the only row pairs February
    2025 with January 2024. *)
Lemma comparison_count_counterexample :
  Monthly.currentMonthNumber 20160 = 2
  /\ Monthly.limitedCurrentYearMonths 20160 lateStartMonths = ["2025-02-01"]%string
  /\ Monthly.previousYearMonths 20160 lateStartMonths
     = ["2024-01-01"; "2024-02-01"]%string
  /\ List.length (Monthly.previousYearMonths 20160 lateStartMonths)
     <> List.length (Monthly.limitedCurrentYearMonths 20160 lateStartMonths)
  /\ Monthly.createMonthlySummary 20160 lateStartMonths
     = [ {| Monthly.monthNumber := 1; Monthly.currentMonth := Some "2025-02-01"%string;
            Monthly.previousMonth := Some "2024-01-01"%string; Monthly.rowNum := 8 |} ].
Proof. vm_compute. repeat split; try reflexivity. discriminate. Qed.

(** C6 (amended). Monthly positional pairing: each of the two year lists is
    cut, on its own, to its first [k] months, [k] being the number of the
    month before the month of the run (12 in January); there is one row per
    month of the cut current-year list, so at most [k] rows; and row [i]
    pairs the [i]-th month of the current year with the [i]-th month of the
    comparison year in the sorted lists, by position alone, with null where
    the comparison year has no [i]-th month. *)
Theorem monthly_positional_pairing today rawMonths :
  let k := Monthly.currentMonthNumber today in
  let allCur := Monthly.monthsOfYear (YearFromDay today)
                  (Monthly.allMonthDates rawMonths) in
  let allPrev := Monthly.monthsOfYear (YearFromDay today - 1)
                   (Monthly.allMonthDates rawMonths) in
  let rows := Monthly.createMonthlySummary today rawMonths in
  k = (if MonthFromDay today =? 0 then 12 else MonthFromDay today)
  /\ List.length (Monthly.limitedCurrentYearMonths today rawMonths)
     = Nat.min (Z.to_nat k) (List.length allCur)
  /\ List.length (Monthly.previousYearMonths today rawMonths)
     = Nat.min (Z.to_nat k) (List.length allPrev)
  /\ List.length rows = Nat.min (Z.to_nat k) (List.length allCur)
  /\ forall i r, nth_error rows i = Some r ->
       Z.of_nat i < k
       /\ Monthly.monthNumber r = Z.of_nat i + 1
       /\ Monthly.currentMonth r = orNull (nth_error allCur i)
       /\ Monthly.previousMonth r = orNull (nth_error allPrev i).
Proof.
  intros k allCur allPrev rows.
  assert (Hk : k = (if MonthFromDay today =? 0 then 12 else MonthFromDay today))
    by apply currentMonthNumber_spec.
  split; [exact Hk|].
  split; [apply length_firstn|]. split; [apply length_firstn|].
  subst rows. rewrite createMonthlySummary_rows.
  unfold Monthly.limitedCurrentYearMonths, Monthly.previousYearMonths, Monthly.slice0.
  fold k allCur allPrev. generalize dependent k. intros k Hk.
  split.
  - rewrite monthRows_spec, length_map, length_seq. apply length_firstn.
  - intros i r Hr. apply monthRows_cut in Hr as (Hik & _ & ->).
    cbn [Monthly.monthRow Monthly.monthNumber Monthly.currentMonth Monthly.previousMonth].
    repeat split. pose proof (MonthFromDay_bounds today).
    destruct (MonthFromDay today =? 0); lia.
Qed.

(** C7 (the code departs from the claim). A run at 2025-01-12 07:00 UTC:
    on the script's clock, that of Los Angeles, it is Saturday the 11th,
    and the end of the range is set six days back, on the evening of
    Sunday the 5th; printed on the clock of an account in Tokyo, where the
    run happens on Sunday the 12th, that instant is Monday 2025-01-06. The
    week 2025-01-06 of the account's calendar, which ends on the day of the
    run, is then in the range, and a record of its Monday makes it a row of
    the report. With the account on the script's clock the range ends on
    Sunday 2025-01-05. *)
Theorem range_end_read_on_two_clocks :
  let now := MakeDate 20100 (7 * msPerHour) in
  getDay pacific now = 6
  /\ endDate pacific now = MakeDate 20094 (7 * msPerHour)
  /\ getDateRange pacific (Some tokyo) now = ("2024-01-01", "2025-01-06")%string
  /\ parseDate "2025-01-06" = Some 20094 /\ WeekDay 20094 = 1
  /\ Utilities_formatDate (Some tokyo) now = Some "2025-01-12"%string
  /\ segmentsWeek 20094 = "2025-01-06"%string
  /\ weekOfDate 20094 + 6 = Day (LocalTime tokyo now)
  /\ map current
       (weekPairsOf pacific (Some tokyo) parseIso (getFullYear pacific now)
          (processData [] pacific (Some tokyo) parseIso
             [Some (recordOf (Some (segmentsWeek 20094)) 1000000 10)]))
     = ["2025-01-06"]%string
  /\ getDateRange pacific (Some pacific) now = ("2024-01-01", "2025-01-05")%string
  /\ getDateRange pacific None now = ("2024-01-01", "2025-01-01")%string.
Proof. vm_compute. repeat split; reflexivity. Qed.

End PeriodFacts.

(** ** Time values on a clock with a fixed offset *)

Module JsDateFacts.
Import Calendar DateKey JsDate CalendarFacts DateKeyFacts.

Lemma Day_MakeDate d t : 0 <= t < msPerDay -> Day (MakeDate d t) = d.
Proof.
  intros Ht. unfold Day, MakeDate. symmetry.
  apply (Z.div_unique _ _ d t); unfold msPerDay in *; lia.
Qed.

Lemma TimeWithinDay_MakeDate d t : 0 <= t < msPerDay -> TimeWithinDay (MakeDate d t) = t.
Proof.
  intros Ht. unfold TimeWithinDay, MakeDate. symmetry.
  apply (Z.mod_unique _ _ d t); unfold msPerDay in *; lia.
Qed.

Lemma TimeWithinDay_bounds t : 0 <= TimeWithinDay t < msPerDay.
Proof. unfold TimeWithinDay. apply Z.mod_pos_bound. reflexivity. Qed.

Lemma MakeDate_Day t : MakeDate (Day t) (TimeWithinDay t) = t.
Proof.
  unfold MakeDate, Day, TimeWithinDay.
  pose proof (Z.div_mod t msPerDay). unfold msPerDay in *. lia.
Qed.

Lemma MakeDay_date_shift y m dt k : MakeDay y m (dt + k) = MakeDay y m dt + k.
Proof. unfold MakeDay. lia. Qed.

(** On a clock with a fixed offset, [setDate] moves the local day by the
    change of the day of the month and keeps the local time of day. *)
Lemma setDate_fixed off t k :
  LocalTime (fixedZone off) (setDate (fixedZone off) t (getDate (fixedZone off) t + k))
  = MakeDate (Day (LocalTime (fixedZone off) t) + k)
             (TimeWithinDay (LocalTime (fixedZone off) t)).
Proof.
  unfold setDate, getDate, LocalTime, UTC. cbn [fixedZone offsetAtInstant offsetAtLocal].
  rewrite MakeDay_date_shift, MakeDay_civil. lia.
Qed.

Lemma setFullYear_fixed off t y :
  LocalTime (fixedZone off) (setFullYear (fixedZone off) t y)
  = MakeDate (MakeDay y (MonthFromDay (Day (LocalTime (fixedZone off) t)))
                        (DateFromDay (Day (LocalTime (fixedZone off) t))))
             (TimeWithinDay (LocalTime (fixedZone off) t)).
Proof.
  unfold setFullYear, LocalTime, UTC. cbn [fixedZone offsetAtInstant offsetAtLocal]. lia.
Qed.

Lemma WeekDay_bounds d : 0 <= WeekDay d < 7.
Proof. unfold WeekDay. apply Z.mod_pos_bound. lia. Qed.

End JsDateFacts.

(** ** The order of numbers *)

Module JsFacts.
Import Js.

Lemma Pcompare_lt_trans a b c :
  Pos.compare a b = Lt -> Pos.compare b c = Lt -> Pos.compare a c = Lt.
Proof. rewrite !Pos.compare_lt_iff. lia. Qed.

(** [<] on numbers is irreflexive and transitive. *)
Lemma ltb_irrefl x : ltb x x = false.
Proof.
  unfold ltb, SFltb, SFcompare.
  destruct x as [s|s| |s m e]; try destruct s; try reflexivity;
    rewrite Z.compare_refl; fold (Pos.compare m m); rewrite Pos.compare_refl; reflexivity.
Qed.

Lemma ltb_trans x y z : ltb x y = true -> ltb y z = true -> ltb x z = true.
Proof.
  unfold ltb, SFltb, SFcompare.
  destruct x as [sx|sx| |sx mx ex], y as [sy|sy| |sy my ey], z as [sz|sz| |sz mz ez];
    try destruct sx; try destruct sy; try destruct sz;
    try discriminate; try reflexivity;
    fold (Pos.compare mx my) (Pos.compare my mz) (Pos.compare mx mz);
    destruct (Z.compare_spec ex ey), (Z.compare_spec ey ez), (Z.compare_spec ex ez);
    try discriminate; try reflexivity; try lia; subst;
    destruct (Pos.compare_spec mx my), (Pos.compare_spec my mz), (Pos.compare_spec mx mz);
    cbn; try discriminate; try reflexivity; try lia.
Qed.

(** A number that is at most 7 is below [Infinity]. *)
Lemma leb_seven_below_infinity x : leb x (ofZ 7) = true -> ltb x Infinity = true.
Proof.
  unfold leb, ltb, SFleb, SFltb, Infinity.
  destruct x as [s|[|]| |s m e]; try reflexivity; try discriminate.
Qed.

End JsFacts.

(** ** The nearest-week search *)

Module NearestFacts.
Import Calendar DateKey JsDate Js Ads Weekly WeeklyFacts JsFacts.

Section Search.

Variable dateParse : string -> option Z.
Variable rawData : list RawRow.
Variable goal : Z.

Lemma NearestInv_initial : NearestInv dateParse goal [] initialSearch.
Proof. split; [reflexivity|]. intros w t []. Qed.

Lemma ltb_false_trans x y z : ltb x z = false -> ltb y z = true -> ltb x y = false.
Proof.
  intros Hxz Hyz. destruct (ltb x y) eqn:Hxy; [|reflexivity].
  rewrite (ltb_trans x y z Hxy Hyz) in Hxz. discriminate.
Qed.

Lemma checkWeek_nearest seen st w :
  NearestInv dateParse goal seen st ->
  NearestInv dateParse goal (seen ++ [w]) (checkWeek dateParse rawData goal st w).
Proof.
  unfold checkWeek. intros Hinv.
  destruct (dateParse w) as [weekDate|] eqn:Hw.
  - destruct (leb (daysDiffOf weekDate goal) (ofZ 7)) eqn:H7; cbn [andb].
    + destruct (ltb (daysDiffOf weekDate goal) (smallestDiff st)) eqn:Hlt.
      * unfold NearestInv. cbn [closestWeek smallestDiff].
        split; [apply in_or_app; right; apply in_eq|].
        exists weekDate. split; [exact Hw|]. split; [reflexivity|]. split; [exact H7|].
        intros w' t' Hin Hw' H7'. apply in_app_or in Hin as [Hin|[<-|[]]].
        -- unfold NearestInv in Hinv. destruct (closestWeek st) as [w0|].
           ++ destruct Hinv as (_ & t0 & _ & Hsd & _ & Hmin).
              rewrite Hsd in Hlt.
              exact (ltb_false_trans _ _ _ (Hmin w' t' Hin Hw' H7') Hlt).
           ++ destruct Hinv as (_ & Hnone). rewrite (Hnone w' t' Hin Hw') in H7'.
              discriminate.
        -- rewrite Hw in Hw'. injection Hw' as <-. apply ltb_irrefl.
      * unfold NearestInv in *. destruct (closestWeek st) as [w0|].
        -- destruct Hinv as (Hin0 & t0 & Ht0 & Hsd & H70 & Hmin).
           split; [apply in_or_app; left; exact Hin0|].
           exists t0. repeat split; try assumption.
           intros w' t' Hin Hw' H7'. apply in_app_or in Hin as [Hin|[<-|[]]].
           ++ exact (Hmin w' t' Hin Hw' H7').
           ++ rewrite Hw in Hw'. injection Hw' as <-. rewrite <- Hsd. exact Hlt.
        -- destruct Hinv as (Hsd & _). rewrite Hsd in Hlt.
           rewrite (leb_seven_below_infinity _ H7) in Hlt. discriminate.
    + unfold NearestInv in *. destruct (closestWeek st) as [w0|].
      * destruct Hinv as (Hin0 & t0 & Ht0 & Hsd & H70 & Hmin).
        split; [apply in_or_app; left; exact Hin0|].
        exists t0. repeat split; try assumption.
        intros w' t' Hin Hw' H7'. apply in_app_or in Hin as [Hin|[<-|[]]].
        -- exact (Hmin w' t' Hin Hw' H7').
        -- rewrite Hw in Hw'. injection Hw' as <-. rewrite H7 in H7'. discriminate.
      * destruct Hinv as (Hsd & Hnone). split; [exact Hsd|].
        intros w' t' Hin Hw'. apply in_app_or in Hin as [Hin|[<-|[]]].
        -- exact (Hnone w' t' Hin Hw').
        -- rewrite Hw in Hw'. injection Hw' as <-. exact H7.
  - unfold NearestInv in *. destruct (closestWeek st) as [w0|].
    + destruct Hinv as (Hin0 & t0 & Ht0 & Hsd & H70 & Hmin).
      split; [apply in_or_app; left; exact Hin0|].
      exists t0. repeat split; try assumption.
      intros w' t' Hin Hw' H7'. apply in_app_or in Hin as [Hin|[<-|[]]].
      * exact (Hmin w' t' Hin Hw' H7').
      * rewrite Hw in Hw'. discriminate.
    + destruct Hinv as (Hsd & Hnone). split; [exact Hsd|].
      intros w' t' Hin Hw'. apply in_app_or in Hin as [Hin|[<-|[]]].
      * exact (Hnone w' t' Hin Hw').
      * rewrite Hw in Hw'. discriminate.
Qed.

Lemma nearest_inv l : forall seen st,
  NearestInv dateParse goal seen st ->
  NearestInv dateParse goal (seen ++ l) (fold_left (checkWeek dateParse rawData goal) l st).
Proof.
  induction l as [|w l IH]; intros seen st Hinv; cbn [fold_left].
  - rewrite app_nil_r. exact Hinv.
  - replace (seen ++ w :: l) with ((seen ++ [w]) ++ l)
      by (rewrite <- app_assoc; reflexivity).
    apply IH, checkWeek_nearest, Hinv.
Qed.

Lemma nearest_result l :
  NearestInv dateParse goal l (fold_left (checkWeek dateParse rawData goal) l initialSearch).
Proof. apply (nearest_inv l [] initialSearch NearestInv_initial). Qed.

End Search.

(** Without an exact match, the result is null exactly when no bucket of
    the list passes the test [daysDiff <= 7] against the target. *)
Theorem search_null_iff_no_bucket_passes
    scriptZone accountTimeZone dateParse cur prev raw c key :
  dateParse cur = Some c ->
  Utilities_formatDate accountTimeZone (exactPreviousDate scriptZone c) = Some key ->
  ~ In key prev ->
  findClosestPreviousYearWeek scriptZone accountTimeZone dateParse cur prev raw = None
  <-> (forall w t, In w prev -> dateParse w = Some t ->
         leb (daysDiffOf t (exactPreviousDate scriptZone c)) (ofZ 7) = false).
Proof.
  intros Hc Hkey Hnotin. unfold findClosestPreviousYearWeek. rewrite Hc, Hkey.
  destruct (arrayIncludes key prev) eqn:Hin;
    [apply arrayIncludes_In in Hin; contradiction|].
  pose proof (nearest_result dateParse raw (exactPreviousDate scriptZone c) prev) as Hinv.
  unfold NearestInv in Hinv.
  destruct (closestWeek (fold_left (checkWeek dateParse raw (exactPreviousDate scriptZone c))
                                   prev initialSearch)) as [w0|].
  - destruct Hinv as (Hin0 & t0 & Ht0 & _ & H70 & _). split; [discriminate|].
    intros Hnone. rewrite (Hnone w0 t0 Hin0 Ht0) in H70. discriminate.
  - destruct Hinv as (_ & Hnone). split; [intros _; exact Hnone|reflexivity].
Qed.

(** Without an exact match, the bucket returned passed the test
    [daysDiff <= 7], and no bucket of the list that passes it is nearer
    to the target. *)
Theorem search_result_nearest
    scriptZone accountTimeZone dateParse cur prev raw c key w :
  dateParse cur = Some c ->
  Utilities_formatDate accountTimeZone (exactPreviousDate scriptZone c) = Some key ->
  ~ In key prev ->
  findClosestPreviousYearWeek scriptZone accountTimeZone dateParse cur prev raw = Some w ->
  In w prev
  /\ exists t, dateParse w = Some t
       /\ leb (daysDiffOf t (exactPreviousDate scriptZone c)) (ofZ 7) = true
       /\ forall w' t', In w' prev -> dateParse w' = Some t' ->
            leb (daysDiffOf t' (exactPreviousDate scriptZone c)) (ofZ 7) = true ->
            ltb (daysDiffOf t' (exactPreviousDate scriptZone c))
                (daysDiffOf t (exactPreviousDate scriptZone c)) = false.
Proof.
  intros Hc Hkey Hnotin. unfold findClosestPreviousYearWeek. rewrite Hc, Hkey.
  destruct (arrayIncludes key prev) eqn:Hin;
    [apply arrayIncludes_In in Hin; contradiction|].
  pose proof (nearest_result dateParse raw (exactPreviousDate scriptZone c) prev) as Hinv.
  unfold NearestInv in Hinv. intros Hres. rewrite Hres in Hinv.
  destruct Hinv as (Hin0 & t0 & Ht0 & _ & H70 & Hmin).
  split; [exact Hin0|]. exists t0. repeat split; assumption.
Qed.

Lemma search_null_iff_no_bucket_passes_witness :
  findClosestPreviousYearWeek pacific (Some pacific) parseIso "2025-03-10"
    ["2024-03-03"; "2024-03-18"]%string [] = None.
Proof.
  apply (proj2 (search_null_iff_no_bucket_passes pacific (Some pacific) parseIso
                  "2025-03-10" ["2024-03-03"; "2024-03-18"]%string []
                  (MakeDate 20157 0) "2024-03-09"%string eq_refl eq_refl
                  ltac:(intros [H|[H|[]]]; discriminate H))).
  intros w t [<-|[<-|[]]] Ht; vm_compute in Ht; injection Ht as <-; vm_compute; reflexivity.
Defined.

Lemma search_result_nearest_witness :
  In "2024-01-15"%string ["2024-01-08"; "2024-01-15"]%string
  /\ exists t, parseIso "2024-01-15" = Some t
       /\ leb (daysDiffOf t (exactPreviousDate pacific (MakeDate 20101 0))) (ofZ 7) = true
       /\ forall w' t', In w' ["2024-01-08"; "2024-01-15"]%string -> parseIso w' = Some t' ->
            leb (daysDiffOf t' (exactPreviousDate pacific (MakeDate 20101 0))) (ofZ 7) = true ->
            ltb (daysDiffOf t' (exactPreviousDate pacific (MakeDate 20101 0)))
                (daysDiffOf t (exactPreviousDate pacific (MakeDate 20101 0))) = false.
Proof.
  apply (search_result_nearest pacific (Some pacific) parseIso
           "2025-01-13" ["2024-01-08"; "2024-01-15"]%string []
           (MakeDate 20101 0) "2024-01-12"%string "2024-01-15"%string).
  - reflexivity.
  - vm_compute. reflexivity.
  - intros [H|[H|[]]]; discriminate H.
  - vm_compute. reflexivity.
Defined.

End NearestFacts.

(** ** The weekly range, the week end and the exact match on fixed clocks *)

Module ClockFacts.
Import Calendar DateKey JsDate Js Ads Weekly CalendarFacts DateKeyFacts WeeklyFacts JsDateFacts.

Lemma LocalTime_midnight off d :
  LocalTime (fixedZone off) (MakeDate d 0) = MakeDate d off.
Proof. unfold LocalTime, MakeDate. cbn. lia. Qed.

(** The weekly range on one clock with a fixed offset: from January 1st of
    last year to the last Sunday before the day of the run. *)
Theorem range_ends_on_last_complete_sunday off now :
  let tz := fixedZone off in
  let today := Day (LocalTime tz now) in
  let back := if WeekDay today =? 0 then 7 else WeekDay today in
  getDateRange tz (Some tz) now
  = (formatDate (MakeDay (YearFromDay today - 1) 0 1), formatDate (today - back))
  /\ WeekDay (today - back) = 0
  /\ today - 7 <= today - back < today.
Proof.
  intros tz today back.
  assert (Hend : Day (LocalTime tz (endDate tz now)) = today - back).
  { unfold endDate, getDay. fold tz. fold today. subst back.
    destruct (WeekDay today =? 0).
    - replace (getDate tz now - 7) with (getDate tz now + - 7) by lia.
      unfold tz. rewrite setDate_fixed. rewrite Day_MakeDate by apply TimeWithinDay_bounds.
      fold tz today. lia.
    - replace (getDate tz now - WeekDay today) with (getDate tz now + - WeekDay today) by lia.
      unfold tz. rewrite setDate_fixed. rewrite Day_MakeDate by apply TimeWithinDay_bounds.
      fold tz today. lia. }
  assert (Hstart : Day (LocalTime tz (startDate tz now)) = MakeDay (YearFromDay today - 1) 0 1).
  { unfold startDate, newDate, getFullYear, LocalTime, UTC. cbn [tz fixedZone offsetAtInstant offsetAtLocal].
    fold tz. unfold LocalTime in today. cbn [tz fixedZone offsetAtInstant] in today. fold today.
    replace (MakeDate (MakeDay (YearFromDay today - 1) 0 1) 0 - off + off)
      with (MakeDate (MakeDay (YearFromDay today - 1) 0 1) 0) by lia.
    apply Day_MakeDate. unfold msPerDay. lia. }
  split.
  - unfold getDateRange, Utilities_formatDate. rewrite Hend, Hstart. reflexivity.
  - pose proof (WeekDay_bounds today) as Hw. subst back.
    destruct (Z.eqb_spec (WeekDay today) 0) as [E|E].
    + split; [|lia]. unfold WeekDay in *.
      replace (today - 7 + 4) with (today + 4 + (-1) * 7) by lia.
      rewrite Z.mod_add by lia. exact E.
    + split; [|lia]. unfold WeekDay in *.
      pose proof (Z.div_mod (today + 4) 7 ltac:(lia)) as Hdm.
      replace (today - (today + 4) mod 7 + 4) with (0 + ((today + 4) / 7) * 7) by lia.
      rewrite Z.mod_add by lia. reflexivity.
Qed.

(** The week end of a stored record on one clock with a fixed offset: six
    days after the day on which the clock shows the start's midnight UTC,
    which is the sixth day after the start at or east of Greenwich and the
    fifth west of it. *)
Theorem week_end_on_one_clock off key d :
  parseDate key = Some d ->
  let tz := fixedZone off in
  (0 <= off < msPerDay -> weekEndOf tz (Some tz) parseIso key = formatDate (d + 6))
  /\ (- msPerDay <= off < 0 -> weekEndOf tz (Some tz) parseIso key = formatDate (d + 5)).
Proof.
  intros Hkey tz.
  assert (Hend : weekEndOf tz (Some tz) parseIso key = formatDate (d + 6 + off / msPerDay)).
  { unfold weekEndOf. destruct key as [|a key]; [discriminate Hkey|].
    unfold parseIso. rewrite Hkey. unfold Utilities_formatDate, tz.
    rewrite setDate_fixed, Day_MakeDate by apply TimeWithinDay_bounds.
    f_equal. unfold LocalTime, MakeDate, Day. cbn [fixedZone offsetAtInstant].
    rewrite Z.add_0_r, Z.div_add_l by (unfold msPerDay; lia). lia. }
  rewrite Hend. split; intros Hoff.
  - rewrite Z.div_small by exact Hoff. f_equal. lia.
  - replace (off / msPerDay) with (-1); [f_equal; lia|].
    apply (Z.div_unique _ _ (-1) (off + msPerDay)); unfold msPerDay in *; lia.
Qed.

Lemma week_end_on_one_clock_witness :
  weekEndOf (fixedZone (- (8 * msPerHour))) (Some (fixedZone (- (8 * msPerHour))))
            parseIso "2025-01-06"
  = "2025-01-11"%string.
Proof.
  apply (proj2 (week_end_on_one_clock (- (8 * msPerHour)) "2025-01-06" 20094 eq_refl)).
  vm_compute. split; [discriminate|reflexivity].
Defined.

(** On clocks with fixed offsets at or east of Greenwich the exact-match
    key is the same calendar date one year earlier, and the bucket of that
    date is returned whenever the comparison list has it. *)
Theorem same_calendar_date_east_of_greenwich off off' cur prev raw d :
  0 <= off < msPerDay -> 0 <= off' < msPerDay ->
  parseDate cur = Some d ->
  In (formatDate (MakeDay (YearFromDay d - 1) (MonthFromDay d) (DateFromDay d))) prev ->
  findClosestPreviousYearWeek (fixedZone off) (Some (fixedZone off')) parseIso cur prev raw
  = Some (formatDate (MakeDay (YearFromDay d - 1) (MonthFromDay d) (DateFromDay d))).
Proof.
  intros Hoff Hoff' Hcur Hin.
  unfold findClosestPreviousYearWeek, parseIso. rewrite Hcur.
  assert (Htarget : exactPreviousDate (fixedZone off) (MakeDate d 0)
                    = MakeDate (MakeDay (YearFromDay d - 1) (MonthFromDay d) (DateFromDay d)) 0).
  { unfold exactPreviousDate, setFullYear, getFullYear, UTC.
    rewrite LocalTime_midnight.
    rewrite Day_MakeDate, TimeWithinDay_MakeDate by exact Hoff.
    cbn [fixedZone offsetAtLocal]. unfold MakeDate. lia. }
  rewrite Htarget. unfold Utilities_formatDate.
  rewrite LocalTime_midnight, Day_MakeDate by exact Hoff'.
  apply arrayIncludes_In in Hin. rewrite Hin. reflexivity.
Qed.

Lemma same_calendar_date_east_of_greenwich_witness :
  findClosestPreviousYearWeek tokyo (Some utc) parseIso "2025-01-06"
    ["2024-01-05"; "2024-01-06"]%string []
  = Some "2024-01-06"%string.
Proof.
  apply (same_calendar_date_east_of_greenwich (9 * msPerHour) 0 "2025-01-06"
           ["2024-01-05"; "2024-01-06"]%string [] 20094).
  - vm_compute. split; [discriminate|reflexivity].
  - vm_compute. split; [discriminate|reflexivity].
  - reflexivity.
  - vm_compute. right. left. reflexivity.
Defined.

End ClockFacts.

(** ** Distinct sorted keys *)

Module ListFacts.
Import Js.

Lemma newSet_In seen l x : In x (newSet seen l) <-> In x l /\ ~ In x seen.
Proof.
  revert seen. induction l as [|y l IH]; intros seen; cbn [newSet].
  - split; [intros []|intros [[] _]].
  - destruct (arrayIncludes y seen) eqn:Hy.
    + apply WeeklyFacts.arrayIncludes_In in Hy. rewrite IH. cbn [In]. split.
      * intros [H1 H2]. auto.
      * intros [[<-|H1] H2]; [contradiction|auto].
    + assert (Hny : ~ In y seen).
      { intros H. apply WeeklyFacts.arrayIncludes_In in H. congruence. }
      cbn [In]. rewrite IH. cbn [In]. split.
      * intros [<-|[H1 H2]]; [auto|]. split; [auto|]. intros H. apply H2. auto.
      * intros [[<-|H1] H2]; [auto|].
        destruct (string_dec y x) as [->|Hne]; [auto|]. right. split; [exact H1|].
        intros [H|H]; [contradiction|contradiction].
Qed.

Lemma newSet_NoDup seen l : NoDup (newSet seen l).
Proof.
  revert seen. induction l as [|y l IH]; intros seen; cbn [newSet].
  - constructor.
  - destruct (arrayIncludes y seen); [apply IH|].
    constructor; [|apply IH]. rewrite newSet_In. intros [_ H]. apply H. left. reflexivity.
Qed.

Lemma insertSorted_perm x l : Permutation (x :: l) (insertSorted x l).
Proof.
  induction l as [|y l IH]; cbn [insertSorted]; [reflexivity|].
  destruct (String.leb x y); [reflexivity|].
  rewrite perm_swap. constructor. exact IH.
Qed.

Lemma sort_perm l : Permutation l (sort l).
Proof.
  induction l as [|x l IH]; cbn; [constructor|].
  rewrite <- insertSorted_perm. constructor. exact IH.
Qed.

Lemma insertSorted_sorted x l : Sorted (fun a b => String.leb a b = true) l -> Sorted (fun a b => String.leb a b = true) (insertSorted x l).
Proof.
  induction l as [|y l IH]; intros Hs; cbn [insertSorted].
  - repeat constructor.
  - destruct (String.leb x y) eqn:Hxy.
    + constructor; [exact Hs|]. constructor. exact Hxy.
    + inversion Hs as [|? ? Hs' Hhd]; subst. constructor; [apply IH; exact Hs'|].
      assert (Hyx : String.leb y x = true).
      { destruct (String.leb_total x y) as [H|H]; [congruence|exact H]. }
      destruct l as [|z l]; cbn [insertSorted].
      * constructor. exact Hyx.
      * destruct (String.leb x z); constructor; [exact Hyx|].
        inversion Hhd; subst. assumption.
Qed.

Lemma sort_sorted l : Sorted (fun a b => String.leb a b = true) (sort l).
Proof.
  induction l as [|x l IH]; cbn; [constructor|]. apply insertSorted_sorted, IH.
Qed.

End ListFacts.

Module OrderFacts.
Import Js ListFacts.

Lemma ascii_compare_eq a b : Ascii.compare a b = Eq -> a = b.
Proof.
  unfold Ascii.compare. rewrite N.compare_eq_iff. intros H.
  rewrite <- (ascii_N_embedding a), <- (ascii_N_embedding b), H. reflexivity.
Qed.

Lemma ascii_compare_refl a : Ascii.compare a a = Eq.
Proof. unfold Ascii.compare. apply N.compare_refl. Qed.

Lemma string_leb_trans a : forall b c,
  String.leb a b = true -> String.leb b c = true -> String.leb a c = true.
Proof.
  unfold String.leb.
  induction a as [|x a IH]; intros [|y b] [|z c]; cbn [String.compare];
    try reflexivity; try discriminate.
  unfold Ascii.compare in *.
  destruct (N.compare_spec (N_of_ascii x) (N_of_ascii y)) as [Exy|Lxy|Gxy];
    destruct (N.compare_spec (N_of_ascii y) (N_of_ascii z)) as [Eyz|Lyz|Gyz];
    destruct (N.compare_spec (N_of_ascii x) (N_of_ascii z)) as [Exz|Lxz|Gxz];
    try discriminate; try reflexivity; try lia.
  apply IH.
Qed.

Lemma filter_sorted (f : string -> bool) l :
  Sorted (fun a b => String.leb a b = true) l ->
  Sorted (fun a b => String.leb a b = true) (filter f l).
Proof.
  intros Hs. apply StronglySorted_Sorted.
  apply Sorted_StronglySorted in Hs;
    [|intros a b c; apply string_leb_trans].
  induction Hs as [|x l Hs IH Hall]; cbn [filter]; [constructor|].
  destruct (f x); [|exact IH]. constructor; [exact IH|].
  rewrite Forall_forall in *. intros y Hy. apply filter_In in Hy as [Hy _]. auto.
Qed.

End OrderFacts.

Module ReportFacts.
Import Calendar DateKey JsDate Js Ads Weekly Formula Sheet WeeklyFacts AdsFacts FormulaFacts ListFacts OrderFacts.

(** The rows of the weekly report: one per distinct week key of the raw
    data that holds the digits of the year, in ascending order of the
    keys. *)
Theorem report_weeks_sorted_distinct scriptZone accountTimeZone dateParse year raw :
  let weeks := map current (weekPairsOf scriptZone accountTimeZone dateParse year raw) in
  Sorted (fun a b => String.leb a b = true) weeks
  /\ NoDup weeks
  /\ forall w, In w weeks
       <-> In w (map weekStart raw) /\ includes (toString year) w = true.
Proof.
  intros weeks.
  assert (E : weeks = weeksOfYear year (allWeekDates raw)).
  { subst weeks. unfold weekPairsOf. rewrite pairWeeks_map, map_map.
    cbn [pairFor current]. apply map_id. }
  rewrite E. unfold weeksOfYear, allWeekDates. split; [|split].
  - apply filter_sorted, sort_sorted.
  - apply NoDup_filter.
    apply (Permutation_NoDup (sort_perm _)), newSet_NoDup.
  - intros w. rewrite filter_In.
    assert (Hiff : In w (sort (newSet [] (map weekStart raw))) <-> In w (map weekStart raw)).
    { split.
      - intros H. apply (Permutation_in _ (Permutation_sym (sort_perm _))) in H.
        apply newSet_In in H. tauto.
      - intros H. apply (Permutation_in _ (sort_perm _)).
        apply newSet_In. split; [exact H|intros []]. }
    tauto.
Qed.

Section Counts.

Variable BRAND_CAMPAIGNS : list string.
Variable scriptZone : Zone.
Variable accountTimeZone : option Zone.
Variable dateParse : string -> option Z.

Lemma brand_count_from rows : forall st,
  brandCampaignCount (fold_left (step BRAND_CAMPAIGNS scriptZone accountTimeZone dateParse) rows st)
  = (brandCampaignCount st
     + List.length (filter isBrand
         (map (processRow BRAND_CAMPAIGNS scriptZone accountTimeZone dateParse)
              (rowObjects rows))))%nat.
Proof.
  induction rows as [|r rows IH]; intros st; cbn [fold_left].
  - cbn. lia.
  - rewrite IH. destruct r as [row|].
    + change (rowObjects (Some row :: rows)) with (row :: rowObjects rows).
      cbn [step brandCampaignCount map filter].
      destruct (isBrand (processRow BRAND_CAMPAIGNS scriptZone accountTimeZone dateParse row));
        cbn [List.length]; lia.
    + change (rowObjects (None :: rows)) with (rowObjects rows).
      cbn [step brandCampaignCount]. reflexivity.
Qed.

End Counts.

(** The brand counter of the run's summary is the number of stored rows
    whose campaign name is in [BRAND_CAMPAIGNS], and the flag of a stored
    row says whether its name is in that list; with the list empty, as
    configured, no row is flagged and the counter is 0. *)
Theorem brand_counter_counts_flagged_rows BRAND scriptZone accountTimeZone dateParse rows :
  let stored := processData BRAND scriptZone accountTimeZone dateParse rows in
  summaryBrandCampaignCount (processSummary BRAND scriptZone accountTimeZone dateParse rows)
  = List.length (filter isBrand stored)
  /\ (forall r, In r stored -> isBrand r = true <-> In (campaignName r) BRAND)
  /\ (BRAND = [] ->
      summaryBrandCampaignCount
        (processSummary BRAND scriptZone accountTimeZone dateParse rows) = 0%nat).
Proof.
  intros stored.
  assert (Hcount : summaryBrandCampaignCount
                     (processSummary BRAND scriptZone accountTimeZone dateParse rows)
                   = List.length (filter isBrand stored)).
  { unfold processSummary, processLoop. cbn [summaryBrandCampaignCount].
    rewrite brand_count_from. subst stored. rewrite processData_spec. reflexivity. }
  assert (Hflag : forall r, In r stored -> isBrand r = true <-> In (campaignName r) BRAND).
  { intros r Hr. subst stored. rewrite processData_spec in Hr.
    apply in_map_iff in Hr as (row & <- & _).
    cbn [processRow isBrand campaignName]. apply arrayIncludes_In. }
  split; [exact Hcount|]. split; [exact Hflag|].
  intros ->. rewrite Hcount. clear Hcount.
  assert (Hnil : forall l : list RawRow,
            (forall r, In r l -> isBrand r = true <-> In (campaignName r) []) ->
            filter isBrand l = []).
  { induction l as [|r l IH]; intros Hl; [reflexivity|]. cbn [filter].
    destruct (isBrand r) eqn:Hb.
    - apply (Hl r (or_introl eq_refl)) in Hb. destruct Hb.
    - apply IH. intros r' Hr'. apply Hl. right. exact Hr'. }
  rewrite (Hnil stored Hflag). reflexivity.
Qed.

(** The formula rows of a run: one row of 30 cells per week pair, whose
    first cell is the number of the row from 1 and whose second cell is
    the current week of the pair. *)
Theorem formula_rows_shape formulaMap weekPairs w :
  let rows := evalState (buildFormulaData formulaMap weekPairs) w in
  List.length rows = List.length weekPairs
  /\ forall i row, nth_error rows i = Some row ->
       List.length row = 30%nat
       /\ nth_error row 0 = Some (NumberCell (Z.of_nat i + 1))
       /\ exists p, nth_error weekPairs i = Some p
            /\ nth_error row 1 = Some (StringCell (current p)).
Proof.
  intros rows. subst rows.
  destruct (buildFormulaData_spec formulaMap weekPairs w) as [-> _].
  split; [rewrite length_map, length_seq; reflexivity|].
  intros i row. rewrite nth_error_map, nth_error_seq.
  destruct (Nat.ltb_spec i (List.length weekPairs)) as [Hi|Hi]; [|discriminate].
  cbn [option_map Nat.add]. intros [= <-].
  destruct (nth_error weekPairs i) as [p|] eqn:Hp;
    [|apply nth_error_None in Hp; lia].
  split; [reflexivity|]. split; [reflexivity|].
  exists p. split; [reflexivity|].
  cbn [nth_error field orNull truthy orEmpty]. destruct (current p); reflexivity.
Qed.

End ReportFacts.
